(** * GenAI-Text front end: the summarization workflow, client-side file
    validation and text utilities, embedded from the JavaScript sources.

    Sources embedded here:
    - [frontend/src/utils/textProcessing.js]: [countUniqueWords]
    - the validation and constants utilities: [validateFile], [FILE_TYPES]
    - [src/components/common/FileUpload.jsx]: [validateFiles], [handleChange]
    - [frontend/src/services/summarizationService.js]
    - [frontend/src/TextSummarizationTool.js]: the handlers of the component
      and the [disabled] props of its controls

    JavaScript strings are sequences of UTF-16 code units; they are modelled
    as [list N].  Objects used as dictionaries are [gmap]s from property
    names to primitive values. *)

From Stdlib Require Import ZArith NArith QArith Ascii String.
From stdpp Require Import gmap strings list pretty.

Local Open Scope N_scope.

(** ** JavaScript strings *)

Module JsStr.

(** A string literal of the source, as code units. *)
Definition js (s : string) : list N :=
  List.map N_of_ascii (list_ascii_of_string s).

(** ECMAScript [WhiteSpace] and [LineTerminator] code points: what
    [String.prototype.trim] strips and what [\s] matches. *)
Definition isWhiteSpace (c : N) : bool :=
  (9 <=? c) && (c <=? 13)
  || (c =? 32) || (c =? 160) || (c =? 5760)
  || (8192 <=? c) && (c <=? 8202)
  || (c =? 8232) || (c =? 8233) || (c =? 8239) || (c =? 8287)
  || (c =? 12288) || (c =? 65279).

Fixpoint dropWhile {A} (p : A -> bool) (l : list A) : list A :=
  match l with
  | [] => []
  | x :: r => if p x then dropWhile p r else l
  end.

Definition trimStart (s : list N) : list N := dropWhile isWhiteSpace s.
Definition trimEnd (s : list N) : list N :=
  rev (dropWhile isWhiteSpace (rev s)).
Definition trim (s : list N) : list N := trimEnd (trimStart s).

(** [s.split(/\s+/)]: the pieces between maximal runs of white space.  A
    run at either end of [s] leaves an empty piece there, and the empty
    string splits into one empty piece.  [cur] is the piece being read, in
    reverse; [inRun] tells that the previous code unit was white space. *)
Fixpoint splitWs_go (inRun : bool) (cur : list N) (s : list N)
  : list (list N) :=
  match s with
  | [] => [rev cur]
  | c :: r =>
      if isWhiteSpace c
      then if inRun then splitWs_go true cur r
           else rev cur :: splitWs_go true [] r
      else splitWs_go false (c :: cur) r
  end.
Definition splitWs (s : list N) : list (list N) := splitWs_go false [] s.

(** [s.split(sep)] for a one-unit separator such as ['.'] or [',']. *)
Fixpoint splitOn_go (sep : N) (cur : list N) (s : list N) : list (list N) :=
  match s with
  | [] => [rev cur]
  | c :: r =>
      if c =? sep then rev cur :: splitOn_go sep [] r
      else splitOn_go sep (c :: cur) r
  end.
Definition splitOn (sep : N) (s : list N) : list (list N) :=
  splitOn_go sep [] s.

(** [a.join(sep)] on an array of strings. *)
Fixpoint join (sep : list N) (l : list (list N)) : list N :=
  match l with
  | [] => []
  | [x] => x
  | x :: r => x ++ sep ++ join sep r
  end.

Fixpoint startsWith (s p : list N) : bool :=
  match p, s with
  | [], _ => true
  | _ :: _, [] => false
  | b :: p', a :: s' => (a =? b) && startsWith s' p'
  end.

Definition includesUnit (s : list N) (c : N) : bool :=
  existsb (N.eqb c) s.

(** What [String.prototype.toLowerCase] does to a string of Basic Latin
    code units (all below 128): [A]-[Z] are lowered, every other unit is
    kept.  On other strings the host's function does more (["É"] becomes
    ["é"]) and this definition is not it.  It stands for [toLowerCase] only
    where a concrete run on a Basic Latin string is evaluated; the results
    below take [toLowerCase] as a parameter and, where they need it, assume
    only that it agrees with this definition on Basic Latin strings. *)
Definition asciiToLowerCase (s : list N) : list N :=
  List.map (fun c => if (65 <=? c) && (c <=? 90) then c + 32 else c) s.

End JsStr.
Import JsStr.

(** ** frontend/src/utils/textProcessing.js *)

Section TextProcessing.

(** [String.prototype.toLowerCase], a built-in of the host. *)
Variable toLowerCase : list N -> list N.

(** [text] is [None] for [undefined]/[null]; the empty string is the only
    other falsy string. *)
Definition countUniqueWords (text : option (list N)) : nat :=
  match text with
  | None => 0%nat
  | Some [] => 0%nat
  | Some t =>
      let words := List.map toLowerCase (splitWs (trim t)) in
      let uniqueWords : gset (list N) := list_to_set words in
      size uniqueWords
  end.

(** The words of a text: its maximal runs of code units that are not white
    space.  This follows the description, not the code. *)
Fixpoint tokens_go (cur : list N) (s : list N) : list (list N) :=
  match s with
  | [] => match cur with [] => [] | _ => [rev cur] end
  | c :: r =>
      if isWhiteSpace c
      then match cur with
           | [] => tokens_go [] r
           | _ => rev cur :: tokens_go [] r
           end
      else tokens_go (c :: cur) r
  end.
Definition tokens (s : list N) : list (list N) := tokens_go [] s.

(** A text that does not end in white space (the empty text included). *)
Definition endsInWord (s : list N) : Prop :=
  match rev s with
  | [] => True
  | c :: _ => isWhiteSpace c = false
  end.

Definition distinctTokenCount (text : option (list N)) : nat :=
  match text with
  | None => 0%nat
  | Some t => size (list_to_set (List.map toLowerCase (tokens t)) : gset (list N))
  end.

End TextProcessing.

(** ** JavaScript primitive values and plain objects *)

Module Js.

(** Numbers: [NaN], the two infinities, and the finite ones as rationals. *)
Inductive Number := NaN | Infinity (negative : bool) | Num (q : Q).

Inductive Val :=
| JUndefined
| JNull
| JBool (b : bool)
| JNum (n : Number)
| JStr (s : list N).

(** An object literal used as a dictionary: own properties only. *)
Abbreviation Obj := (gmap (list N) Val).

Definition int (z : Z) : Val := JNum (Num (inject_Z z)).

(** [ToBoolean]. *)
Definition truthy (v : Val) : bool :=
  match v with
  | JUndefined | JNull => false
  | JBool b => b
  | JNum NaN => false
  | JNum (Infinity _) => true
  | JNum (Num q) => negb (Qeq_bool q 0)
  | JStr s => match s with [] => false | _ => true end
  end.

(** [a || b]. *)
Definition or (a b : Val) : Val := if truthy a then a else b.

(** [o.k]: [undefined] when the property is absent. *)
Definition get (o : Obj) (k : string) : Val := default JUndefined (o !! js k).

(** [{...a, ...b}]: properties of [b] win. *)
Definition spread (a b : Obj) : Obj := b ∪ a.

(** [v === 'literal']. *)
Definition strictEqStr (v : Val) (s : list N) : bool :=
  match v with
  | JStr t => bool_decide (t = s)
  | _ => false
  end.

(** [a <= b] on numbers; false when either side is [NaN] or not a number.
    The sources never compare option values; this is used to state what
    they do not check. *)
Definition numLe (a b : Val) : bool :=
  match a, b with
  | JNum (Num x), JNum (Num y) => Qle_bool x y
  | JNum (Infinity true), JNum (Num _ | Infinity _) => true
  | JNum (Num _ | Infinity _), JNum (Infinity false) => true
  | _, _ => false
  end.

Definition digitValue (c : N) : option N :=
  if (48 <=? c) && (c <=? 57) then Some (c - 48)
  else if (97 <=? c) && (c <=? 122) then Some (c - 87)
  else if (65 <=? c) && (c <=? 90) then Some (c - 55)
  else None.

(** The longest prefix of digits below [radix]; [None] when it is empty. *)
Fixpoint parseDigits (radix : N) (acc : option N) (s : list N) : option N :=
  match s with
  | [] => acc
  | c :: r =>
      match digitValue c with
      | Some d =>
          if d <? radix
          then parseDigits radix (Some (default 0 acc * radix + d)) r
          else acc
      | None => acc
      end
  end.

(** The Number value for an integer: the integer itself up to 2^53 in
    absolute value; beyond that the nearest double, that is the integer
    rounded to 53 significant bits, ties to the even significand; an
    infinity once this reaches 2^1024. *)
Definition ofInteger (z : Z) : Number :=
  let a := Z.abs z in
  if (a <=? 2 ^ 53)%Z then Num (inject_Z z)
  else
    let e := (Z.log2 a - 52)%Z in
    let q := Z.shiftr a e in
    let r := (a - Z.shiftl q e)%Z in
    let half := Z.shiftl 1 (e - 1) in
    let q' :=
      if (r <? half)%Z then q
      else if (half <? r)%Z then (q + 1)%Z
      else if Z.even q then q else (q + 1)%Z in
    let v := Z.shiftl q' e in
    if (2 ^ 1024 <=? v)%Z then Infinity (z <? 0)%Z
    else Num (inject_Z (if (z <? 0)%Z then - v else v)).

(** [parseInt(s)] without a radix argument: leading white space, an
    optional sign, an optional [0x]/[0X] prefix, then digits; the result is
    the Number value for the integer read.  [-0] is not told from [0]
    (nothing in the sources can tell them apart), and a decimal string of
    more than 20 significant digits is read in full, where the language
    lets an implementation replace the digits after the 20th by zeros. *)
Definition parseInt (s : list N) : Val :=
  let s1 := trimStart s in
  let '(neg, s2) :=
    match s1 with
    | 45 :: r => (true, r)
    | 43 :: r => (false, r)
    | _ => (false, s1)
    end in
  let '(radix, s3) :=
    match s2 with
    | 48 :: 120 :: r | 48 :: 88 :: r => (16, r)
    | _ => (10, s2)
    end in
  match parseDigits radix None s3 with
  | None => JNum NaN
  | Some n => JNum (ofInteger (if neg then - Z.of_N n else Z.of_N n))
  end.

(** Decimal rendering of an integer inside a template literal.  This is
    what JavaScript prints for a number that is an integer of at most 2^53
    in absolute value (from 10^21 on it prints an exponent); the sources
    render an attempt number, [maxAttempts], the size limit in MB and the
    slider positions. *)
Definition showZ (z : Z) : list N := js (pretty z).

End Js.
Import Js.

(** ** Files, as the browser's [File] objects expose them *)

Record File := mkFile {
  file_name : list N;
  file_size : Z;       (* bytes *)
  file_type : list N;  (* MIME type, possibly empty *)
}.

#[global] Instance File_eq_dec : EqDecision File.
Proof. solve_decision. Defined.

Section Validation.

Variable toLowerCase : list N -> list N.

(** *** utils/constants: [FILE_TYPES] *)

Definition ALLOWED_EXTENSIONS : list (list N) :=
  [js ".txt"; js ".pdf"; js ".docx"; js ".doc"].
Definition MAX_SIZE : Z := 10 * 1024 * 1024.

(** ['.' + file.name.split('.').pop().toLowerCase()] *)
Definition extensionOf (name : list N) : list N :=
  js "." ++ toLowerCase (List.last (splitOn 46 name) []).

(** *** utils/validation: [validateFile]

    Returns [{ isValid, errors }]. *)
Definition validateFile (file : option File) : bool * list (list N) :=
  match file with
  | None => (false, [js "No file selected"])
  | Some f =>
      let errors := [] in
      let errors :=
        if (file_size f >? MAX_SIZE)%Z
        then errors ++ [js "File size exceeds "
                          ++ showZ (MAX_SIZE / (1024 * 1024)) ++ js "MB limit"]
        else errors in
      let extension := extensionOf (file_name f) in
      let errors :=
        if negb (bool_decide (extension ∈ ALLOWED_EXTENSIONS))
        then errors ++ [js "File type not allowed. Allowed types: "
                          ++ join (js ", ") ALLOWED_EXTENSIONS]
        else errors in
      (bool_decide (length errors = 0%nat), errors)
  end.

(** *** components/common/FileUpload.jsx *)

Record FileUploadProps := mkProps {
  accept : list N;
  maxSize : Z;        (* in MB *)
  multiple : bool;
  disabled : bool;
}.

(** The props the summarization tool passes. *)
Definition toolProps (loading : bool) : FileUploadProps :=
  {| accept := js ".txt,.pdf,.docx,.doc"; maxSize := 10;
     multiple := false; disabled := loading |}.

(** The callback given to [acceptedTypes.some]. *)
Definition typeMatches (f : File) (fileExtension type : list N) : bool :=
  if includesUnit type 42
  then let mimePrefix := List.hd [] (splitOn 42 type) in
       startsWith (file_type f) mimePrefix
  else bool_decide (type = fileExtension) || bool_decide (type = file_type f).

(** One turn of the [forEach] body of [validateFiles]: each [return] leaves
    the turn after one push. *)
Definition validateFiles_step (p : FileUploadProps)
    (acc : list File * list (list N)) (f : File) : list File * list (list N) :=
  let '(validFiles, invalidFiles) := acc in
  if (file_size f >? maxSize p * 1024 * 1024)%Z
  then (validFiles,
        invalidFiles ++ [file_name f ++ js " (exceeds " ++ showZ (maxSize p)
                           ++ js "MB size limit)"])
  else
    let fileExtension := extensionOf (file_name f) in
    let acceptedTypes := splitOn 44 (accept p) in
    if negb (existsb (typeMatches f fileExtension) acceptedTypes)
    then (validFiles, invalidFiles ++ [file_name f ++ js " (invalid file type)"])
    else (validFiles ++ [f], invalidFiles).

(** [validateFiles]: the new value of the component's [error] state, and
    the returned array ([None] for the returned [false]). *)
Definition validateFiles (p : FileUploadProps) (files : list File)
  : list N * option (list File) :=
  let '(validFiles, invalidFiles) :=
    fold_left (validateFiles_step p) files ([], []) in
  if (0 <? length invalidFiles)%nat
  then (js "Cannot upload: " ++ join (js ", ") invalidFiles, None)
  else (js "", Some validFiles).

(** Whether a file's extension or MIME type is among the accepted ones of
    the upload control. *)
Definition typeAccepted (p : FileUploadProps) (f : File) : bool :=
  existsb (typeMatches f (extensionOf (file_name f)))
          (splitOn 44 (accept p)).

Definition tooLarge (p : FileUploadProps) (f : File) : bool :=
  (file_size f >? maxSize p * 1024 * 1024)%Z.

Record FileUploadState := mkFU {
  fu_error : list N;
  fu_selectedFiles : list File;
}.

(** What [onFileSelect] receives: an array when [multiple], else one file
    ([validFiles[0]]). *)
Inductive Selection :=
| SelMany (fs : list File)
| SelOne (f : option File).

(** [handleChange] (and [handleDrop], which has the same body after the
    drag bookkeeping): the next component state and the argument of the
    [onFileSelect] call, if one is made. *)
Definition handleChange (p : FileUploadProps) (targetFiles : list File)
    (s : FileUploadState) : FileUploadState * option Selection :=
  match targetFiles with
  | [] => (s, None)
  | first :: _ =>
      let files := if multiple p then targetFiles else [first] in
      match validateFiles p files with
      | (err, Some validFiles) =>
          ({| fu_error := err;
              fu_selectedFiles :=
                if multiple p then validFiles
                else option_list (List.head validFiles) |},
           Some (if multiple p then SelMany validFiles
                 else SelOne (List.head validFiles)))
      | (err, None) =>
          ({| fu_error := err; fu_selectedFiles := fu_selectedFiles s |}, None)
      end
  end.

(** Why the upload control turns a file down, if it does: the entry it adds
    to [invalidFiles]. *)
Definition rejection (p : FileUploadProps) (f : File) : option (list N) :=
  if tooLarge p f then
    Some (file_name f ++ js " (exceeds " ++ showZ (maxSize p)
            ++ js "MB size limit)")
  else if typeAccepted p f then None
  else Some (file_name f ++ js " (invalid file type)").

Definition accepted (p : FileUploadProps) (f : File) : bool :=
  negb (tooLarge p f) && typeAccepted p f.

End Validation.

(** ** frontend/src/TextSummarizationTool.js: the component's state *)

Module Store.

(** One field per [useState] of [TextSummarizationTool]. *)
Record State := mkState {
  text : list N;
  summary : Val;
  loading : bool;
  file : option File;
  feedback : list N;
  rating : Z;
  documentId : Val;
  error : list N;
  selectedModel : Val;
  summaryOptions : Obj;
  advancedOptions : Obj;
  processingStatus : list N;
}.

Definition defaultAdvancedOptions : Obj :=
  {[ js "temperature" := JNum (Num (7 # 10));
     js "format" := JStr (js "paragraph");
     js "includeKeywords" := JBool false;
     js "language" := JStr (js "auto") ]}.

(** The arguments of the [useState] calls. *)
Definition initial : State :=
  {| text := js ""; summary := JStr (js ""); loading := false; file := None;
     feedback := js ""; rating := 0; documentId := JStr (js "");
     error := js ""; selectedModel := JStr (js "gpt-3.5-turbo");
     summaryOptions := {[ js "maxLength" := int 150; js "minLength" := int 40 ]};
     advancedOptions := defaultAdvancedOptions;
     processingStatus := js "" |}.

(** The state setters returned by [useState]; every call in the source
    passes a value, never an updater function. *)
Inductive Setter :=
| SetText (v : list N)
| SetSummary (v : Val)
| SetLoading (v : bool)
| SetFile (v : option File)
| SetFeedback (v : list N)
| SetRating (v : Z)
| SetDocumentId (v : Val)
| SetError (v : list N)
| SetSelectedModel (v : Val)
| SetSummaryOptions (v : Obj)
| SetAdvancedOptions (v : Obj)
| SetProcessingStatus (v : list N).

Definition apply (u : Setter) (s : State) : State :=
  let '(mkState t su lo fi fe ra do er mo so ao ps) := s in
  match u with
  | SetText v => mkState v su lo fi fe ra do er mo so ao ps
  | SetSummary v => mkState t v lo fi fe ra do er mo so ao ps
  | SetLoading v => mkState t su v fi fe ra do er mo so ao ps
  | SetFile v => mkState t su lo v fe ra do er mo so ao ps
  | SetFeedback v => mkState t su lo fi v ra do er mo so ao ps
  | SetRating v => mkState t su lo fi fe v do er mo so ao ps
  | SetDocumentId v => mkState t su lo fi fe ra v er mo so ao ps
  | SetError v => mkState t su lo fi fe ra do v mo so ao ps
  | SetSelectedModel v => mkState t su lo fi fe ra do er v so ao ps
  | SetSummaryOptions v => mkState t su lo fi fe ra do er mo v ao ps
  | SetAdvancedOptions v => mkState t su lo fi fe ra do er mo so v ps
  | SetProcessingStatus v => mkState t su lo fi fe ra do er mo so ao v
  end.

End Store.
Import Store.

(** ** Asynchronous handlers

    An [async] function is a tree of the effects it performs: state
    updates, console output, timers, and the suspension points ([await]) at
    which the transport answers.  A rejected promise is the [Rejected] reply,
    so [try]/[catch] around an [await] is a [match] on the reply; a
    [TypeError] raised right after the [await], by reading a property of an
    absent body, takes the same [catch]. *)

Module Async.

(** The HTTP requests of [summarizationService]. *)
Inductive Request :=
| PostSummarize (text : list N) (max_length min_length : Val)
| PostDocuments (file : File) (max_length min_length : Val)
| GetDocument (documentId : Val)
| PostFeedback (document_id summary_id : Val) (rating : Z)
               (feedback_text : list N) (original_summary : Val).

(** How a request settles: fulfilled with [response.data], or rejected.
    [FulfilledNull] is a fulfilled request whose body is [null] or
    [undefined]: reading a property of it throws a [TypeError].  A body that
    is a string, a number or a boolean has none of the properties read here
    and so reads like the empty object. *)
Inductive Reply :=
| Fulfilled (data : Obj)
| FulfilledNull
| Rejected (reason : Val).

Inductive Task (A : Type) : Type :=
| Ret (a : A)
| Upd (u : Setter) (k : Task A)
| Console (msg : list N) (k : Task A)
| SetTimeout (ms : Z) (u : Setter) (k : Task A)
| Sleep (ms : Z) (k : Task A)
| Await (r : Request) (k : Reply -> Task A).
Arguments Ret {A} a.
Arguments Upd {A} u k.
Arguments Console {A} msg k.
Arguments SetTimeout {A} ms u k.
Arguments Sleep {A} ms k.
Arguments Await {A} r k.

Fixpoint bind {A B} (t : Task A) (f : A -> Task B) : Task B :=
  match t with
  | Ret a => f a
  | Upd u k => Upd u (bind k f)
  | Console m k => Console m (bind k f)
  | SetTimeout ms u k => SetTimeout ms u (bind k f)
  | Sleep ms k => Sleep ms (bind k f)
  | Await r k => Await r (fun x => bind (k x) f)
  end.

#[global] Instance Task_ret : MRet Task := @Ret.
#[global] Instance Task_bind : MBind Task := fun A B f t => bind t f.

Definition upd (u : Setter) : Task unit := Upd u (Ret tt).
Definition console (msg : list N) : Task unit := Console msg (Ret tt).
Definition setTimeout (ms : Z) (u : Setter) : Task unit := SetTimeout ms u (Ret tt).
(** [await new Promise(resolve => setTimeout(resolve, ms))] *)
Definition sleep (ms : Z) : Task unit := Sleep ms (Ret tt).
Definition await (r : Request) : Task Reply := Await r Ret.

(** What a run does to the outside, in order. *)
Inductive Event :=
| EvRequest (r : Request)
| EvSleep (ms : Z)
| EvConsole (msg : list N)
| EvTimer (ms : Z) (u : Setter).

(** The transport: the reply to the [n]-th request of a run (counting
    from 0), which may depend on the request. *)
Definition Transport := nat -> Request -> Reply.

Record Outcome (A : Type) := mkOutcome {
  result : A;
  final : State;
  events : list Event;
}.
Arguments mkOutcome {A} result final events.
Arguments result {A} o.
Arguments final {A} o.
Arguments events {A} o.

Definition emit {A} (e : Event) (o : Outcome A) : Outcome A :=
  mkOutcome (result o) (final o) (e :: events o).

(** Run a task to completion against a transport; [n] requests were issued
    before. *)
Fixpoint run {A} (tr : Transport) (t : Task A) (n : nat) (s : State)
  : Outcome A :=
  match t with
  | Ret a => mkOutcome a s []
  | Upd u k => run tr k n (apply u s)
  | Console m k => emit (EvConsole m) (run tr k n s)
  | SetTimeout ms u k => emit (EvTimer ms u) (run tr k n s)
  | Sleep ms k => emit (EvSleep ms) (run tr k n s)
  | Await r k => emit (EvRequest r) (run tr (k (tr n r)) (S n) s)
  end.

Definition isRequest (e : Event) : bool :=
  match e with EvRequest _ => true | _ => false end.
Definition isStatusQuery (e : Event) : bool :=
  match e with EvRequest (GetDocument _) => true | _ => false end.

Definition requests (ev : list Event) : list Event := List.filter isRequest ev.
Definition statusQueries (ev : list Event) : nat :=
  length (List.filter isStatusQuery ev).
Definition requestCount (ev : list Event) : nat := length (requests ev).

(** An outcome with earlier events put in front. *)
Definition after {A} (ev : list Event) (o : Outcome A) : Outcome A :=
  mkOutcome (result o) (final o) (ev ++ events o).

(** What the user or the network can observe: everything but console
    output. *)
Definition isConsole (e : Event) : bool :=
  match e with EvConsole _ => true | _ => false end.
Definition observable (ev : list Event) : list Event :=
  List.filter (fun e => negb (isConsole e)) ev.

(** A status reply that does not end the loop: a rejection, an absent body,
    or a body whose [status] is not ['completed'] (processing, pending,
    failed, ...). *)
Definition notReady (r : Reply) : bool :=
  match r with
  | Fulfilled data => negb (strictEqStr (get data "status") (js "completed"))
  | FulfilledNull => true
  | Rejected _ => true
  end.

End Async.
Import Async.

(** ** frontend/src/services/summarizationService.js

    Each method awaits one request and returns [response.data] as it is; on
    rejection it logs and rethrows ([error.response?.data || error]), so the
    caller sees a rejection. *)

Module Service.

Definition summarizeText (text : list N) (options : Obj) : Task Reply :=
  response ← await (PostSummarize text
                      (Js.or (get options "maxLength") (int 150))
                      (Js.or (get options "minLength") (int 40)));
  match response with
  | Fulfilled data => mret (Fulfilled data)
  | FulfilledNull => mret FulfilledNull
  | Rejected error => console (js "Summarization error:");; mret (Rejected error)
  end.

Definition uploadDocument (file : File) (options : Obj) : Task Reply :=
  response ← await (PostDocuments file
                      (Js.or (get options "maxLength") (int 150))
                      (Js.or (get options "minLength") (int 40)));
  match response with
  | Fulfilled data => mret (Fulfilled data)
  | FulfilledNull => mret FulfilledNull
  | Rejected error => console (js "Document upload error:");; mret (Rejected error)
  end.

Definition getSummary (documentId : Val) : Task Reply :=
  response ← await (GetDocument documentId);
  match response with
  | Fulfilled data => mret (Fulfilled data)
  | FulfilledNull => mret FulfilledNull
  | Rejected error => console (js "Get summary error:");; mret (Rejected error)
  end.

Definition submitFeedback (document_id summary_id : Val) (rating : Z)
    (feedback_text : list N) (original_summary : Val) : Task Reply :=
  response ← await (PostFeedback document_id summary_id rating
                      feedback_text original_summary);
  match response with
  | Fulfilled data => mret (Fulfilled data)
  | FulfilledNull => mret FulfilledNull
  | Rejected error => console (js "Feedback submission error:");; mret (Rejected error)
  end.

End Service.

(** ** frontend/src/TextSummarizationTool.js: the handlers

    A handler reads the state of the render it was created in (its argument
    [s]) and writes through the setters. *)

Module Tool.

Definition handleTextChange (value : list N) : Setter := SetText value.

(** [handleFileUpload]: the updates it makes, in order. *)
Definition handleFileUpload (selectedFile : option File) (s : State)
  : list Setter :=
  SetFile selectedFile ::
  (if truthy (documentId s)
   then [SetDocumentId (JStr (js "")); SetSummary (JStr (js ""))]
   else []).

(** [handleOptionsChange], on [e.target.name] and [e.target.value]. *)
Definition handleOptionsChange (name value : list N) (s : State) : Setter :=
  SetSummaryOptions (<[name := parseInt value]> (summaryOptions s)).

Definition handleModelSelect (modelId : Val) : Setter :=
  SetSelectedModel modelId.

Definition handleAdvancedOptionsChange (newOptions : Obj) : Setter :=
  SetAdvancedOptions newOptions.

Definition resetAdvancedOptions : Setter :=
  SetAdvancedOptions defaultAdvancedOptions.

(** [{ ...summaryOptions, model: selectedModel, ...advancedOptions }] *)
Definition requestOptions (s : State) : Obj :=
  spread (<[js "model" := selectedModel s]> (summaryOptions s))
         (advancedOptions s).

Definition summarizeText (s : State) : Task unit :=
  if negb (truthy (JStr (trim (text s)))) then
    upd (SetError (js "Please enter some text to summarize"))
  else
    upd (SetLoading true);;
    upd (SetError (js ""));;
    upd (SetProcessingStatus (js "Generating summary..."));;
    outcome ← Service.summarizeText (text s) (requestOptions s);
    match outcome with
    | Fulfilled result =>
        upd (SetSummary (get result "summary"));;
        upd (SetDocumentId (get result "document_id"));;
        upd (SetLoading false)
    | FulfilledNull | Rejected _ =>
        console (js "Error summarizing text:");;
        upd (SetError (js "An error occurred during summarization. Please try again."));;
        upd (SetLoading false)
    end.

Definition maxAttempts : nat := 30.

(** The [while (!summaryReady && attempts < maxAttempts)] loop.  [fuel]
    bounds the number of turns for the termination checker; the loop
    leaves by its own condition ([pollLoop_total] below), and [None] is
    returned only if the fuel runs out first. *)
Fixpoint pollLoop (fuel : nat) (docId : Val) (summaryReady : bool)
    (attempts : nat) : Task (option bool) :=
  if negb summaryReady && (attempts <? maxAttempts)%nat then
    match fuel with
    | O => mret None
    | S fuel' =>
        sleep 2000;;
        summaryResponse ← Service.getSummary docId;
        summaryReady' ←
          match summaryResponse with
          | Fulfilled data =>
              if strictEqStr (get data "status") (js "completed") then
                upd (SetSummary (get data "summary"));;
                mret true
              else
                upd (SetProcessingStatus
                       (js "Processing document... ("
                          ++ showZ (Z.of_nat (attempts + 1)) ++ js "/"
                          ++ showZ (Z.of_nat maxAttempts) ++ js ")"));;
                mret summaryReady
          | FulfilledNull | Rejected _ =>
              console (js "Summary not ready yet, retrying...");;
              mret summaryReady
          end;
        pollLoop fuel' docId summaryReady' (attempts + 1)
    end
  else mret (Some summaryReady).

(** [summarizeFile]; the result is [None] only if the loop ran out of
    fuel, which [summarizeFile_total] excludes. *)
Definition summarizeFile (s : State) : Task (option unit) :=
  match file s with
  | None =>
      upd (SetError (js "Please select a file to upload"));;
      mret (Some tt)
  | Some f =>
      upd (SetLoading true);;
      upd (SetError (js ""));;
      upd (SetProcessingStatus (js "Uploading document..."));;
      uploadResult ← Service.uploadDocument f (requestOptions s);
      match uploadResult with
      | Fulfilled data =>
          let docId := get data "document_id" in
          upd (SetDocumentId docId);;
          upd (SetProcessingStatus (js "Processing document..."));;
          exit ← pollLoop maxAttempts docId false 0;
          match exit with
          | None => mret None
          | Some summaryReady =>
              (if negb summaryReady then
                 upd (SetError (js "Summary generation is taking longer than expected. Please check back later."))
               else mret tt);;
              upd (SetLoading false);;
              mret (Some tt)
          end
      | FulfilledNull | Rejected _ =>
          console (js "Error processing document:");;
          upd (SetError (js "Error uploading or processing document. Please try again."));;
          upd (SetLoading false);;
          mret (Some tt)
      end
  end.

Definition submitFeedback (s : State) : Task unit :=
  if (rating s =? 0)%Z then
    upd (SetError (js "Please provide a rating before submitting feedback"))
  else
    upd (SetLoading true);;
    upd (SetError (js ""));;
    upd (SetProcessingStatus (js "Submitting feedback..."));;
    outcome ← Service.submitFeedback (documentId s) (documentId s) (rating s)
                (feedback s) (summary s);
    match outcome with
    | Fulfilled _ | FulfilledNull =>
        upd (SetProcessingStatus (js "Feedback submitted successfully!"));;
        setTimeout 3000 (SetProcessingStatus (js ""));;
        upd (SetFeedback (js ""));;
        upd (SetRating 0);;
        upd (SetLoading false)
    | Rejected _ =>
        console (js "Error submitting feedback:");;
        upd (SetError (js "Error submitting feedback. Please try again."));;
        upd (SetLoading false)
    end.

(** Every field but [processingStatus] agrees. *)
Definition sameButStatus (s s' : State) : Prop :=
  apply (SetProcessingStatus (processingStatus s)) s' = s.

(** The events of [k] turns of the loop, console output aside. *)
Definition pollEvents (docId : Val) (k : nat) : list Event :=
  concat (replicate k [EvSleep 2000; EvRequest (GetDocument docId)]).

(** The upload request [summarizeFile] issues for file [f] in state [s]. *)
Definition uploadRequest (s : State) (f : File) : Request :=
  PostDocuments f (Js.or (get (requestOptions s) "maxLength") (int 150))
                  (Js.or (get (requestOptions s) "minLength") (int 40)).

(** The state in which the polling loop starts. *)
Definition uploaded (s : State) (docId : Val) : State :=
  apply (SetProcessingStatus (js "Processing document..."))
    (apply (SetDocumentId docId)
       (apply (SetProcessingStatus (js "Uploading document..."))
          (apply (SetError (js "")) (apply (SetLoading true) s)))).

(** The workflow states of the description, read off the store: a
    submission has succeeded when the spinner is off, no error is shown and
    the summary is in place; it has failed when the spinner is off and the
    error message is shown. *)
Definition Succeeded (s : State) (docId summaryText : Val) : Prop :=
  loading s = false /\ error s = js "" /\
  documentId s = docId /\ summary s = summaryText.
Definition Failed (s : State) (message : list N) : Prop :=
  loading s = false /\ error s = message.

(** A handler invoked on state [s] and run to completion. *)
Definition invoke {A} (tr : Transport) (h : State -> Task A) (s : State)
  : Outcome A :=
  run tr (h s) 0 s.

End Tool.
Import Tool.

(** ** Concrete data for the scenarios *)

Module Scenario.

Definition report : File :=
  mkFile (js "report.PDF") 2048 (js "application/pdf").

(** 15 MB, and not a document either. *)
Definition bigExe : File :=
  mkFile (js "big.exe") (15 * 1024 * 1024) (js "application/x-msdownload").

Definition processing : Reply :=
  Fulfilled {[ js "status" := JStr (js "processing") ]}.
Definition completed (summaryText : string) : Reply :=
  Fulfilled {[ js "status" := JStr (js "completed");
               js "summary" := JStr (js summaryText) ]}.
Definition uploadedAs (id : string) : Reply :=
  Fulfilled {[ js "document_id" := JStr (js id) ]}.

(** The upload is accepted as ["d2"] and the document never gets ready. *)
Definition neverReady : Transport := fun n _ =>
  match n with
  | O => uploadedAs "d2"
  | _ => processing
  end.

(** Two polls say processing, the third completes. *)
Definition readyOnThird : Transport := fun n _ =>
  match n with
  | O => uploadedAs "d2"
  | 1%nat | 2%nat => processing
  | _ => completed "Done."
  end.

(** The first poll is rejected, the second completes. *)
Definition flakyOnce : Transport := fun n _ =>
  match n with
  | O => uploadedAs "d2"
  | 1%nat => Rejected (JStr (js "Network Error"))
  | _ => completed "Done."
  end.

(** Every request is rejected. *)
Definition offline : Transport := fun _ _ => Rejected (JStr (js "Network Error")).

(** Every request is fulfilled with no body at all. *)
Definition emptyBody : Transport := fun _ _ => FulfilledNull.

(** Every request is answered with a summary and a document id. *)
Definition summarizing : Transport := fun _ _ =>
  Fulfilled {[ js "summary" := JStr (js "Hi."); js "document_id" := JStr (js "d1") ]}.

(** The initial render with [report] selected. *)
Definition withReport : State := apply (SetFile (Some report)) initial.

(** The user types a text, drags the maximum-length slider down to 50 and
    the minimum-length slider up to 200. *)
Definition invertedOptions : State :=
  let s1 := apply (handleTextChange (js "Hello world")) initial in
  let s2 := apply (handleOptionsChange (js "maxLength") (js "50") s1) s1 in
  apply (handleOptionsChange (js "minLength") (js "200") s2) s2.

(** A summary is shown, rated four stars with a comment. *)
Definition rated : State :=
  apply (SetFeedback (js "Too short"))
    (apply (SetRating 4)
       (apply (SetDocumentId (JStr (js "d1")))
          (apply (SetSummary (JStr (js "Hi."))) initial))).

(** The same, with a text typed and [report] selected as well: every
    handler passes its guard. *)
Definition filled : State :=
  apply (SetText (js "Hello world")) (apply (SetFile (Some report)) rated).

End Scenario.

(** ** The mounted component: handlers in flight and the controls' gates

    The JSX binds each handler to a control and disables every control while
    [loading] is set.  An instance holds the store, the handlers suspended at
    an [await], the pending [setTimeout] callbacks, and whether the component
    is still rendered.

    The component registers no cleanup: no effect, no abort signal, no flag
    read by a handler.  When the user navigates to another route the
    component is unmounted and nothing else happens to its handlers: their
    timers and requests stay pending and resume them as before.  The setters
    of an unmounted component do nothing, and its controls are gone. *)

Module Instance.

(** What the user can do to the rendered component. *)
Inductive Intent :=
| TypeText (value : list N)
| ClickSummarizeText
| SelectFile (selectedFile : option File)
| ClickSummarizeFile
| ChangeOption (name value : list N)
| SelectModel (modelId : Val)
| ChangeAdvanced (newOptions : Obj)
| ResetAdvanced
| Rate (star : Z)
| TypeFeedback (value : list N)
| ClickSubmitFeedback.

(** The [disabled] props, and the [summary &&] guard of the feedback
    section. *)
Definition enabled (i : Intent) (s : State) : bool :=
  match i with
  | ClickSummarizeFile => negb (loading s || negb (bool_decide (is_Some (file s))))
  | Rate _ | TypeFeedback _ => truthy (summary s) && negb (loading s)
  | ClickSubmitFeedback =>
      truthy (summary s) && negb (loading s || (rating s =? 0)%Z)
  | _ => negb (loading s)
  end.

Inductive Suspended :=
| AtTimer (ms : Z) (k : Task unit)
| AtRequest (r : Request) (k : Reply -> Task unit).

Record Progress := mkProgress {
  p_store : State;
  p_events : list Event;
  p_timers : list Setter;
  p_next : option Suspended;
}.

Definition emitP (e : Event) (p : Progress) : Progress :=
  mkProgress (p_store p) (e :: p_events p) (p_timers p) (p_next p).

(** Run a task up to its next suspension point. *)
Fixpoint advance (t : Task unit) (s : State) : Progress :=
  match t with
  | Ret _ => mkProgress s [] [] None
  | Upd u k => advance k (apply u s)
  | Console m k => emitP (EvConsole m) (advance k s)
  | SetTimeout ms u k =>
      let p := advance k s in
      mkProgress (p_store p) (EvTimer ms u :: p_events p) (u :: p_timers p)
                 (p_next p)
  | Sleep ms k => mkProgress s [EvSleep ms] [] (Some (AtTimer ms k))
  | Await r k => mkProgress s [EvRequest r] [] (Some (AtRequest r k))
  end.

Definition void {A} (t : Task A) : Task unit := bind t (fun _ => Ret tt).

Record Instance := mkInstance {
  store : State;
  inflight : list Suspended;
  timers : list Setter;
  rendered : bool;
}.

Definition mounted : Instance := mkInstance initial [] [] true.

Inductive Input :=
| User (i : Intent)
| TimerFires (j : nat)
| ReplyArrives (j : nat) (reply : Reply)
| CallbackFires (j : nat)
| NavigateAway.

(** The store after updates that led to [s']: kept only while the component
    is rendered. *)
Definition commit (w : Instance) (s' : State) : State :=
  if rendered w then s' else store w.

Definition applyAll (us : list Setter) (s : State) : State :=
  fold_left (fun s u => apply u s) us s.

(** Start a handler on the current render's state. *)
Definition start (t : Task unit) (w : Instance) : Instance * list Event :=
  let p := advance t (store w) in
  (mkInstance (commit w (p_store p)) (inflight w ++ option_list (p_next p))
              (timers w ++ p_timers p) (rendered w),
   p_events p).

(** Resume the [j]-th suspended handler with task [t]. *)
Definition resume (j : nat) (t : Task unit) (w : Instance)
  : Instance * list Event :=
  let p := advance t (store w) in
  (mkInstance (commit w (p_store p))
              (take j (inflight w) ++ option_list (p_next p)
                 ++ drop (S j) (inflight w))
              (timers w ++ p_timers p) (rendered w),
   p_events p).

Definition dispatch (i : Intent) (w : Instance) : Instance * list Event :=
  let s := store w in
  let sync us :=
    (mkInstance (applyAll us s) (inflight w) (timers w) (rendered w), []) in
  match i with
  | TypeText v => sync [handleTextChange v]
  | ClickSummarizeText => start (Tool.summarizeText s) w
  | SelectFile f => sync (handleFileUpload f s)
  | ClickSummarizeFile => start (void (summarizeFile s)) w
  | ChangeOption name value => sync [handleOptionsChange name value s]
  | SelectModel m => sync [handleModelSelect m]
  | ChangeAdvanced o => sync [handleAdvancedOptionsChange o]
  | ResetAdvanced => sync [resetAdvancedOptions]
  | Rate star => sync [SetRating star]
  | TypeFeedback v => sync [SetFeedback v]
  | ClickSubmitFeedback => start (Tool.submitFeedback s) w
  end.

Definition step (w : Instance) (i : Input) : Instance * list Event :=
  match i with
  | User intent =>
      if rendered w && enabled intent (store w) then dispatch intent w
      else (w, [])
  | TimerFires j =>
      match inflight w !! j with
      | Some (AtTimer _ k) => resume j k w
      | _ => (w, [])
      end
  | ReplyArrives j reply =>
      match inflight w !! j with
      | Some (AtRequest _ k) => resume j (k reply) w
      | _ => (w, [])
      end
  | CallbackFires j =>
      match timers w !! j with
      | Some u => (mkInstance (commit w (apply u (store w))) (inflight w)
                              (take j (timers w) ++ drop (S j) (timers w))
                              (rendered w), [])
      | None => (w, [])
      end
  | NavigateAway => (mkInstance (store w) (inflight w) (timers w) false, [])
  end.

Fixpoint steps (w : Instance) (inputs : list Input) : Instance * list Event :=
  match inputs with
  | [] => (w, [])
  | i :: rest =>
      let '(w1, ev1) := step w i in
      let '(w2, ev2) := steps w1 rest in
      (w2, ev1 ++ ev2)
  end.

(** A handler suspended in the polling loop: waiting for its timer or for
    the answer to a status query. *)
Definition polling (w : Instance) : bool :=
  match inflight w with
  | [AtTimer 2000 _] | [AtRequest (GetDocument _) _] => true
  | _ => false
  end.

Definition isSubmission (i : Intent) : bool :=
  match i with
  | ClickSummarizeText | ClickSummarizeFile => true
  | _ => false
  end.

(** *** Vocabulary for the in-flight invariant *)

Definition touchesLoading (u : Setter) : bool :=
  match u with SetLoading _ => true | _ => false end.

(** The value of [loading] after an update, given its value before. *)
Definition loadingAfter (u : Setter) (l : bool) : bool :=
  match u with SetLoading v => v | _ => l end.

(** A task that never writes [loading]. *)
Fixpoint quiet {A} (t : Task A) : Prop :=
  match t with
  | Ret _ => True
  | Upd u k => touchesLoading u = false /\ quiet k
  | Console _ k => quiet k
  | SetTimeout _ u k => touchesLoading u = false /\ quiet k
  | Sleep _ k => quiet k
  | Await _ k => forall x, quiet (k x)
  end.

(** A task that, started with [loading = l], is suspended only while
    [loading] is set, and whose deferred callbacks leave [loading] alone. *)
Fixpoint busy {A} (l : bool) (t : Task A) : Prop :=
  match t with
  | Ret _ => True
  | Upd u k => busy (loadingAfter u l) k
  | Console _ k => busy l k
  | SetTimeout _ u k => touchesLoading u = false /\ busy l k
  | Sleep _ k => l = true /\ busy l k
  | Await _ k => l = true /\ forall x, busy l (k x)
  end.

Definition suspendedBusy (p : Suspended) : Prop :=
  match p with
  | AtTimer _ k => busy true k
  | AtRequest _ k => forall x, busy true (k x)
  end.

(** At most one handler is in flight, and then [loading] is set. *)
Definition oneInFlight (w : Instance) : Prop :=
  Forall (fun u => touchesLoading u = false) (timers w) /\
  match inflight w with
  | [] => True
  | [p] => loading (store w) = true /\ suspendedBusy p
  | _ => False
  end.

(** A choice of files in the tool's upload control.  The tool renders
    [<FileUpload onFileSelect={handleFileUpload} accept=".txt,.pdf,.docx,.doc"
    maxSize={10} disabled={loading} />]: the control's [handleChange] runs
    on the control's own state with these props, and the [onFileSelect] call
    it makes, if it makes one, is the tool's [handleFileUpload].  A disabled
    input takes no choice.  The control is not [multiple], so it never
    passes an array ([handleChange_passes_one_file]). *)
Definition chooseFiles (toLowerCase : list N -> list N)
    (targetFiles : list File) (fu : FileUploadState) (w : Instance)
  : FileUploadState * Instance :=
  if rendered w && negb (loading (store w)) then
    match handleChange toLowerCase (toolProps (loading (store w)))
            targetFiles fu with
    | (fu', Some (SelOne f)) => (fu', fst (step w (User (SelectFile f))))
    | (fu', Some (SelMany _)) => (fu', w)
    | (fu', None) => (fu', w)
    end
  else (fu, w).

(** What the user can do while a handler is suspended: act on a control, or
    leave the page. *)
Definition isInterrupt (i : Input) : bool :=
  match i with
  | User _ | NavigateAway => true
  | _ => false
  end.

(** Let the transport answer the first handler in flight until it returns:
    before each resumption the inputs of the next entry of [between] arrive;
    [n] requests were answered before. *)
Fixpoint drive (tr : Transport) (between : list (list Input)) (n : nat)
    (w : Instance) : Instance * list Event :=
  match between, inflight w with
  | ins :: rest, _ :: _ =>
      let '(w0, e0) := steps w ins in
      match inflight w0 with
      | AtTimer _ _ :: _ =>
          let '(w1, e1) := step w0 (TimerFires 0) in
          let '(w2, e2) := drive tr rest n w1 in
          (w2, e0 ++ e1 ++ e2)
      | AtRequest r _ :: _ =>
          let '(w1, e1) := step w0 (ReplyArrives 0 (tr n r)) in
          let '(w2, e2) := drive tr rest (S n) w1 in
          (w2, e0 ++ e1 ++ e2)
      | [] => (w0, e0)
      end
  | _, _ => (w, [])
  end.

(** The suspension points among the events of a run: its delays and its
    requests. *)
Definition suspensions (ev : list Event) : nat :=
  length (List.filter (fun e => match e with
                                | EvSleep _ | EvRequest _ => true
                                | _ => false
                                end) ev).

(** The user starts a text, selects [report], uploads it, and the first
    status query has been answered "processing": the loop waits for its
    next turn. *)
Definition duringPolling : list Input :=
  [User (TypeText (js "Hello world"));
   User (SelectFile (Some Scenario.report));
   User ClickSummarizeFile;
   ReplyArrives 0 (Scenario.uploadedAs "d2");
   TimerFires 0;
   ReplyArrives 0 Scenario.processing].

End Instance.
Import Instance.

(** * Properties *)

Local Close Scope N_scope.

Arguments js : simpl never.
Arguments showZ : simpl never.
Arguments pollLoop : simpl never.
Arguments pollEvents : simpl never.
Arguments observable : simpl never.
Arguments statusQueries : simpl never.

(** ** Running tasks *)

Section RunFacts.

Context (tr : Transport).

Lemma after_nil {A} (o : Outcome A) : after [] o = o.
Proof. by destruct o. Qed.

Lemma after_after {A} ev1 ev2 (o : Outcome A) :
  after ev1 (after ev2 o) = after (ev1 ++ ev2) o.
Proof. unfold after; simpl. by rewrite app_assoc. Qed.

Lemma emit_after {A} e (o : Outcome A) : emit e o = after [e] o.
Proof. reflexivity. Qed.

Lemma requestCount_app ev1 ev2 :
  requestCount (ev1 ++ ev2) = (requestCount ev1 + requestCount ev2)%nat.
Proof. unfold requestCount, requests. by rewrite List.filter_app, length_app. Qed.

Lemma statusQueries_app ev1 ev2 :
  statusQueries (ev1 ++ ev2) = (statusQueries ev1 + statusQueries ev2)%nat.
Proof. unfold statusQueries. by rewrite List.filter_app, length_app. Qed.

(** Sequencing: the second task starts where the first one stopped. *)
Lemma run_bind {A B} (t : Task A) (f : A -> Task B) n s :
  run tr (bind t f) n s =
  let o := run tr t n s in
  after (events o)
        (run tr (f (result o)) (n + requestCount (events o)) (final o)).
Proof.
  revert n s.
  induction t as [a|u k IH|m k IH|ms u k IH|ms k IH|r k IH]; intros n s; simpl.
  - rewrite Nat.add_0_r. by rewrite after_nil.
  - apply IH.
  - rewrite IH. by simpl.
  - rewrite IH. by simpl.
  - rewrite IH. by simpl.
  - rewrite IH. simpl. unfold requestCount at 2. simpl.
    by rewrite <- Nat.add_succ_comm.
Qed.

Lemma run_mbind {A B} (t : Task A) (f : A -> Task B) n s :
  run tr (t ≫= f) n s =
  let o := run tr t n s in
  after (events o)
        (run tr (f (result o)) (n + requestCount (events o)) (final o)).
Proof. apply run_bind. Qed.

End RunFacts.

(** ** The polling loop *)

Section PollLoop.

Context (tr : Transport) (docId : Val).

(** The loop leaves at once when the summary is ready or the attempts are
    used up. *)
Lemma pollLoop_exit fuel ready attempts n s :
  negb ready && (attempts <? maxAttempts)%nat = false ->
  run tr (pollLoop fuel docId ready attempts) n s = mkOutcome (Some ready) s [].
Proof.
  intros H. destruct fuel; unfold pollLoop; fold pollLoop; by rewrite H.
Qed.

Lemma sameButStatus_refl s : sameButStatus s s.
Proof. by destruct s. Qed.

Lemma sameButStatus_set s s' v :
  sameButStatus s s' -> sameButStatus s (apply (SetProcessingStatus v) s').
Proof. unfold sameButStatus. intros <-. by destruct s'. Qed.

(** One turn on a reply that is not ready: a delay, a status query, and at
    most a change of the progress text. *)
Lemma pollLoop_turn fuel attempts n s :
  (attempts < maxAttempts)%nat ->
  notReady (tr n (GetDocument docId)) = true ->
  exists s' ev,
    sameButStatus s s' /\
    observable ev = [EvSleep 2000; EvRequest (GetDocument docId)] /\
    run tr (pollLoop (S fuel) docId false attempts) n s =
    after ev (run tr (pollLoop fuel docId false (attempts + 1)) (S n) s').
Proof.
  intros Hlt Hnr.
  apply Nat.ltb_lt in Hlt.
  unfold pollLoop; fold pollLoop. rewrite Hlt. cbn.
  destruct (tr n (GetDocument docId)) as [data| |reason] eqn:Hr; cbn in *.
  - apply negb_true_iff in Hnr. rewrite Hnr. cbn.
    eexists _, [EvSleep 2000; EvRequest (GetDocument docId)].
    split; [apply sameButStatus_set, sameButStatus_refl|].
    split; [reflexivity|]. reflexivity.
  - eexists s, [EvSleep 2000; EvRequest (GetDocument docId); EvConsole _].
    split; [apply sameButStatus_refl|].
    split; [reflexivity|]. reflexivity.
  - eexists s, [EvSleep 2000; EvRequest (GetDocument docId); EvConsole _; EvConsole _].
    split; [apply sameButStatus_refl|].
    split; [reflexivity|]. reflexivity.
Qed.

Lemma sameButStatus_trans s1 s2 s3 :
  sameButStatus s1 s2 -> sameButStatus s2 s3 -> sameButStatus s1 s3.
Proof.
  unfold sameButStatus. intros <- <-. by destruct s3.
Qed.

Lemma observable_app ev1 ev2 :
  observable (ev1 ++ ev2) = observable ev1 ++ observable ev2.
Proof. apply List.filter_app. Qed.

(** [k] turns in a row on replies that are not ready. *)
Lemma pollLoop_turns k : forall fuel attempts n s,
  (attempts + k <= maxAttempts)%nat ->
  (forall i, (i < k)%nat -> notReady (tr (n + i) (GetDocument docId)) = true) ->
  exists s' ev,
    sameButStatus s s' /\
    observable ev = pollEvents docId k /\
    run tr (pollLoop (k + fuel) docId false attempts) n s =
    after ev (run tr (pollLoop fuel docId false (attempts + k)) (n + k) s').
Proof.
  induction k as [|k IH]; intros fuel attempts n s Hle Hnr.
  - exists s, []. rewrite !Nat.add_0_r, after_nil.
    split; [apply sameButStatus_refl|]. by split.
  - destruct (pollLoop_turn (k + fuel) attempts n s) as (s1 & ev1 & Hs1 & Hev1 & Hrun1).
    { lia. }
    { specialize (Hnr 0%nat). rewrite Nat.add_0_r in Hnr. apply Hnr. lia. }
    destruct (IH fuel (attempts + 1)%nat (S n) s1) as (s2 & ev2 & Hs2 & Hev2 & Hrun2).
    { lia. }
    { intros i Hi. replace (S n + i)%nat with (n + S i)%nat by lia.
      apply Hnr. lia. }
    exists s2, (ev1 ++ ev2).
    split; [by eapply sameButStatus_trans|].
    split.
    + rewrite observable_app, Hev1, Hev2. reflexivity.
    + change (S k + fuel)%nat with (S (k + fuel)).
      rewrite Hrun1, Hrun2, after_after.
      by replace (attempts + 1 + k)%nat with (attempts + S k)%nat by lia;
         replace (S n + k)%nat with (n + S k)%nat by lia.
Qed.

(** The turn on a completed reply stores the summary and ends the loop. *)
Lemma pollLoop_completed fuel attempts n s data :
  (attempts < maxAttempts)%nat ->
  tr n (GetDocument docId) = Fulfilled data ->
  strictEqStr (get data "status") (js "completed") = true ->
  run tr (pollLoop (S fuel) docId false attempts) n s =
  mkOutcome (Some true) (apply (SetSummary (get data "summary")) s)
            [EvSleep 2000; EvRequest (GetDocument docId)].
Proof.
  intros Hlt Hr Hc. apply Nat.ltb_lt in Hlt.
  unfold pollLoop; fold pollLoop. rewrite Hlt. cbn.
  rewrite Hr. cbn. rewrite Hc. cbn.
  rewrite pollLoop_exit by reflexivity. reflexivity.
Qed.

(** The loop always leaves by its own condition when given the fuel of the
    attempts that remain. *)
Lemma pollLoop_total fuel : forall ready attempts n s,
  (maxAttempts - attempts <= fuel)%nat ->
  exists b, result (run tr (pollLoop fuel docId ready attempts) n s) = Some b.
Proof.
  induction fuel as [|fuel IH]; intros ready attempts n s Hf.
  - exists ready. rewrite pollLoop_exit; [done|].
    destruct ready; [done|]. simpl. apply Nat.ltb_ge. lia.
  - destruct (negb ready && (attempts <? maxAttempts)%nat) eqn:Hc.
    2:{ exists ready. by rewrite pollLoop_exit. }
    unfold pollLoop; fold pollLoop. rewrite Hc. cbn.
    destruct (tr n (GetDocument docId)) as [data| |reason]; cbn.
    + destruct (strictEqStr (get data "status") (js "completed")); cbn;
        apply IH; lia.
    + apply IH. lia.
    + apply IH. lia.
Qed.

End PollLoop.

(** ** [summarizeFile] *)

Section SummarizeFile.

Context (tr : Transport).

Lemma sameButStatus_fields s s' :
  sameButStatus s s' ->
  loading s' = loading s /\ error s' = error s /\
  documentId s' = documentId s /\ summary s' = summary s /\
  rating s' = rating s /\ feedback s' = feedback s.
Proof. unfold sameButStatus. intros <-. by destruct s'. Qed.

Lemma uploaded_fields s docId :
  error (uploaded s docId) = js "" /\ documentId (uploaded s docId) = docId.
Proof. by destruct s. Qed.

Lemma closes_succeeded s0 s' v :
  sameButStatus s0 s' -> error s0 = js "" ->
  Succeeded (apply (SetLoading false) (apply (SetSummary v) s'))
            (documentId s0) v.
Proof.
  intros Hs He. destruct (sameButStatus_fields _ _ Hs) as (_ & He' & Hd & _).
  unfold Succeeded. destruct s'; cbn in *. by rewrite He', He, Hd.
Qed.

Lemma closes_failed s0 s' msg :
  sameButStatus s0 s' ->
  Failed (apply (SetLoading false) (apply (SetError msg) s')) msg /\
  documentId (apply (SetLoading false) (apply (SetError msg) s')) = documentId s0.
Proof.
  intros Hs. destruct (sameButStatus_fields _ _ Hs) as (_ & _ & Hd & _).
  unfold Failed. by destruct s'.
Qed.

(** After a successful upload the handler is the polling loop followed by
    the two updates that close the submission. *)
Lemma summarizeFile_uploaded s f d :
  file s = Some f ->
  tr 0 (uploadRequest s f) = Fulfilled d ->
  let docId := get d "document_id" in
  let o := run tr (pollLoop maxAttempts docId false 0) 1 (uploaded s docId) in
  invoke tr summarizeFile s =
  after (EvRequest (uploadRequest s f) :: events o)
    match result o with
    | None => mkOutcome None (final o) []
    | Some ready =>
        mkOutcome (Some tt)
          (apply (SetLoading false)
             (if negb ready
              then apply (SetError (js "Summary generation is taking longer than expected. Please check back later.")) (final o)
              else final o)) []
    end.
Proof.
  intros Hf Hu docId o.
  unfold invoke, summarizeFile. rewrite Hf. cbn.
  unfold uploadRequest in Hu. rewrite Hu. cbn.
  rewrite run_mbind. fold docId. fold (uploaded s docId). fold o.
  unfold emit, after. cbn.
  destruct (result o) as [[]|]; cbn; by rewrite ?app_nil_r.
Qed.

(** [summarizeFile] never runs out of fuel: it returns on every state and
    against every transport. *)
Lemma summarizeFile_total s : result (invoke tr summarizeFile s) = Some tt.
Proof.
  destruct (file s) as [f|] eqn:Hf.
  2:{ unfold invoke, summarizeFile. by rewrite Hf. }
  destruct (tr 0 (uploadRequest s f)) as [d| |reason] eqn:Hu.
  - rewrite (summarizeFile_uploaded s f d Hf Hu). cbn.
    destruct (pollLoop_total tr (get d "document_id") maxAttempts false 0 1
                (uploaded s (get d "document_id"))) as [b Hb]; [lia|].
    by rewrite Hb.
  - unfold invoke, summarizeFile. rewrite Hf. cbn.
    unfold uploadRequest in Hu. by rewrite Hu.
  - unfold invoke, summarizeFile. rewrite Hf. cbn.
    unfold uploadRequest in Hu. by rewrite Hu.
Qed.

End SummarizeFile.

Section FileSubmission.

Context (tr : Transport) (s : State) (f : File).
Hypothesis Hfile : file s = Some f.

Lemma statusQueries_observable ev :
  statusQueries (observable ev) = statusQueries ev.
Proof.
  unfold statusQueries, observable.
  induction ev as [|[[]| | |] ev IH]; simpl; congruence.
Qed.

Lemma statusQueries_pollEvents docId k :
  statusQueries (pollEvents docId k) = k.
Proof.
  unfold pollEvents. induction k as [|k IH]; [done|].
  simpl. by rewrite <- IH at 2.
Qed.

Lemma statusQueries_upload l :
  statusQueries (EvRequest (uploadRequest s f) :: l) = statusQueries l.
Proof. reflexivity. Qed.

Lemma observable_request r l :
  observable (EvRequest r :: l) = EvRequest r :: observable l.
Proof. reflexivity. Qed.

Lemma pollEvents_snoc docId k :
  pollEvents docId (k + 1) =
  pollEvents docId k ++ [EvSleep 2000; EvRequest (GetDocument docId)].
Proof.
  unfold pollEvents. by rewrite replicate_add, concat_app.
Qed.

(** [k] replies that are not ready and then a completed one: the handler
    polls [k + 1] times and shows the summary. *)
Lemma summarizeFile_completes d k data :
  tr 0 (uploadRequest s f) = Fulfilled d ->
  let docId := get d "document_id" in
  k < maxAttempts ->
  (forall i, i < k -> notReady (tr (1 + i) (GetDocument docId)) = true) ->
  tr (1 + k) (GetDocument docId) = Fulfilled data ->
  strictEqStr (get data "status") (js "completed") = true ->
  let o := invoke tr summarizeFile s in
  result o = Some tt /\
  observable (events o) = EvRequest (uploadRequest s f) :: pollEvents docId (k + 1) /\
  Succeeded (final o) docId (get data "summary").
Proof.
  intros Hu docId Hk Hnr Hdone Hc o.
  destruct (pollLoop_turns tr docId k (maxAttempts - k) 0 1 (uploaded s docId))
    as (s' & ev & Hs' & Hev & Hrun); [lia|done|].
  replace (k + (maxAttempts - k)) with maxAttempts in Hrun by lia.
  destruct (maxAttempts - k) as [|fuel] eqn:Hfuel; [lia|].
  rewrite (pollLoop_completed tr docId fuel (0 + k) (1 + k) s' data) in Hrun
    by (done || lia).
  subst o. rewrite (summarizeFile_uploaded tr s f d Hfile Hu).
  fold docId. rewrite Hrun. cbn.
  split; [done|]. split.
  - rewrite observable_request. f_equal.
    rewrite app_nil_r, observable_app, Hev.
    by rewrite pollEvents_snoc.
  - destruct (uploaded_fields s docId) as [He Hd].
    pose proof (closes_succeeded _ _ (get data "summary") Hs' He) as H.
    by rewrite Hd in H.
Qed.

(** C2. If the upload succeeds and each of the [maxAttempts] = 30 status
    replies is a rejection or carries a status other than ['completed'],
    then [summarizeFile] returns after exactly 30 status queries, each one
    preceded by a 2000 ms delay and none after the last; it ends with the
    spinner off and the "taking longer than expected" message shown, and
    the document id still in the store. *)
Theorem polling_gives_up_after_maxAttempts d :
  tr 0 (uploadRequest s f) = Fulfilled d ->
  let docId := get d "document_id" in
  (forall i, i < maxAttempts ->
             notReady (tr (1 + i) (GetDocument docId)) = true) ->
  let o := invoke tr summarizeFile s in
  result o = Some tt /\
  statusQueries (events o) = 30 /\
  observable (events o) =
    EvRequest (uploadRequest s f) :: pollEvents docId 30 /\
  Failed (final o)
    (js "Summary generation is taking longer than expected. Please check back later.") /\
  documentId (final o) = docId.
Proof.
  intros Hu docId Hnr o.
  destruct (pollLoop_turns tr docId maxAttempts 0 0 1 (uploaded s docId))
    as (s' & ev & Hs' & Hev & Hrun); [lia|done|].
  rewrite (pollLoop_exit tr docId 0 false (0 + maxAttempts)) in Hrun by done.
  assert (Hobs : observable (events o) =
                 EvRequest (uploadRequest s f) :: pollEvents docId 30).
  { subst o. rewrite (summarizeFile_uploaded tr s f d Hfile Hu).
    fold docId. change (maxAttempts + 0) with maxAttempts in Hrun.
    rewrite Hrun. cbn. by rewrite observable_request, !app_nil_r, Hev. }
  split; [apply summarizeFile_total|].
  split; [by rewrite <- statusQueries_observable, Hobs, statusQueries_upload,
            statusQueries_pollEvents|].
  split; [done|].
  subst o. rewrite (summarizeFile_uploaded tr s f d Hfile Hu).
  fold docId. change (maxAttempts + 0) with maxAttempts in Hrun.
  rewrite Hrun. cbn.
  destruct (uploaded_fields s docId) as [He Hd].
  pose proof (closes_failed _ _ (js "Summary generation is taking longer than expected. Please check back later.") Hs') as H.
  by rewrite Hd in H.
Qed.

(** C3. A rejected status query does not end the loop: if, after [k]
    replies that are not ready, the next query is rejected and the one
    after it answers ['completed'], the handler goes on to that query
    ([k + 2] in all) and ends in the succeeded state with the summary of
    the completed reply.  With [k = 0] this is a single failed poll
    followed by a completed one. *)
Theorem rejected_poll_is_retried d k reason data :
  tr 0 (uploadRequest s f) = Fulfilled d ->
  let docId := get d "document_id" in
  k + 2 <= maxAttempts ->
  (forall i, i < k -> notReady (tr (1 + i) (GetDocument docId)) = true) ->
  tr (1 + k) (GetDocument docId) = Rejected reason ->
  tr (2 + k) (GetDocument docId) = Fulfilled data ->
  strictEqStr (get data "status") (js "completed") = true ->
  let o := invoke tr summarizeFile s in
  result o = Some tt /\
  statusQueries (events o) = k + 2 /\
  Succeeded (final o) docId (get data "summary").
Proof.
  intros Hu docId Hk Hnr Hrej Hdone Hc o. subst docId.
  destruct (summarizeFile_completes d (k + 1) data Hu) as (Hr & Hobs & Hs);
    [lia| |by replace (1 + (k + 1)) with (2 + k) by lia|done|].
  { intros i Hi. destruct (decide (i = k)) as [->|Hne].
    - by rewrite Hrej.
    - apply Hnr. lia. }
  split; [done|]. split; [|done].
  fold o in Hobs.
  rewrite <- statusQueries_observable, Hobs, statusQueries_upload,
    statusQueries_pollEvents. lia.
Qed.

(** C7. If the upload request is rejected, [summarizeFile] issues no
    status query at all: the upload is its only request, and it ends with
    the spinner off and the upload error message shown. *)
Theorem failed_upload_is_not_polled reason :
  tr 0 (uploadRequest s f) = Rejected reason ->
  let o := invoke tr summarizeFile s in
  result o = Some tt /\
  statusQueries (events o) = 0 /\
  requests (events o) = [EvRequest (uploadRequest s f)] /\
  Failed (final o)
    (js "Error uploading or processing document. Please try again.").
Proof.
  intros Hu o. subst o.
  unfold invoke, summarizeFile. rewrite Hfile. cbn.
  unfold uploadRequest in Hu. rewrite Hu. cbn.
  unfold Failed. by destruct s.
Qed.

(** C8. If the upload answers with document id ["d2"], the first two
    status replies say ['processing'] and the third says ['completed'] with
    summary ["Done."], then the handler ends in the succeeded state showing
    ["Done."] after exactly three status queries. *)
Theorem completes_on_third_poll d p1 p2 p3 :
  tr 0 (uploadRequest s f) = Fulfilled d ->
  get d "document_id" = JStr (js "d2") ->
  tr 1 (GetDocument (JStr (js "d2"))) = Fulfilled p1 ->
  get p1 "status" = JStr (js "processing") ->
  tr 2 (GetDocument (JStr (js "d2"))) = Fulfilled p2 ->
  get p2 "status" = JStr (js "processing") ->
  tr 3 (GetDocument (JStr (js "d2"))) = Fulfilled p3 ->
  get p3 "status" = JStr (js "completed") ->
  get p3 "summary" = JStr (js "Done.") ->
  let o := invoke tr summarizeFile s in
  result o = Some tt /\
  statusQueries (events o) = 3 /\
  Succeeded (final o) (JStr (js "d2")) (JStr (js "Done.")).
Proof.
  intros Hu Hd H1 Hs1 H2 Hs2 H3 Hs3 Hsum o.
  destruct (summarizeFile_completes d 2 p3 Hu) as (Hr & Hobs & Hs).
  - unfold maxAttempts. lia.
  - rewrite Hd. intros [|[|i]] Hi; [| |lia]; cbn.
    + by rewrite H1; cbn; rewrite Hs1.
    + by rewrite H2; cbn; rewrite Hs2.
  - by rewrite Hd.
  - by rewrite Hs3.
  - split; [done|]. rewrite Hd, Hsum in Hs. split; [|done].
    fold o in Hobs.
    by rewrite <- statusQueries_observable, Hobs, statusQueries_upload,
      statusQueries_pollEvents.
Qed.

End FileSubmission.

(** ** Every run of [summarizeFile] *)

Section FileSubmissionShape.

Context (tr : Transport) (s : State) (f : File).
Hypothesis Hfile : file s = Some f.

Lemma pollEvents_S docId k :
  pollEvents docId (S k) =
  [EvSleep 2000; EvRequest (GetDocument docId)] ++ pollEvents docId k.
Proof. reflexivity. Qed.

(** Thirty replies that are not ready: the handler gives up. *)
Lemma summarizeFile_gives_up d :
  tr 0 (uploadRequest s f) = Fulfilled d ->
  let docId := get d "document_id" in
  (forall i, i < maxAttempts ->
             notReady (tr (1 + i) (GetDocument docId)) = true) ->
  let o := invoke tr summarizeFile s in
  observable (events o) =
    EvRequest (uploadRequest s f) :: pollEvents docId maxAttempts /\
  Failed (final o)
    (js "Summary generation is taking longer than expected. Please check back later.") /\
  documentId (final o) = docId.
Proof.
  intros Hu docId Hnr o.
  destruct (pollLoop_turns tr docId maxAttempts 0 0 1 (uploaded s docId))
    as (s' & ev & Hs' & Hev & Hrun); [lia|done|].
  rewrite (pollLoop_exit tr docId 0 false (0 + maxAttempts)) in Hrun by done.
  change (maxAttempts + 0) with maxAttempts in Hrun.
  subst o. rewrite (summarizeFile_uploaded tr s f d Hfile Hu).
  fold docId. rewrite Hrun. cbn.
  split; [by rewrite observable_request, !app_nil_r, Hev|].
  destruct (uploaded_fields s docId) as [He Hd].
  pose proof (closes_failed _ _ (js "Summary generation is taking longer than expected. Please check back later.") Hs') as H.
  by rewrite Hd in H.
Qed.

Lemma first_false (P : nat -> bool) m :
  (forall i, i < m -> P i = true) \/
  exists j, j < m /\ (forall i, i < j -> P i = true) /\ P j = false.
Proof.
  induction m as [|m [IH|(j & Hj & Hlt & Hf)]].
  - left. intros i Hi. lia.
  - destruct (P m) eqn:Hm.
    + left. intros i Hi. destruct (decide (i = m)) as [->|Hne]; [done|].
      apply IH. lia.
    + right. exists m. split; [lia|]. split; [|done].
      intros i Hi. by apply IH.
  - right. exists j. split; [lia|]. done.
Qed.

(** What a run of [summarizeFile] is, whatever the transport answers.  If
    the upload is fulfilled with a body, the handler makes [k] status queries
    for the document id of that body, [1 <= k <= 30], each after a delay of
    2000 ms; no reply before the [k]-th is ready, and the [k]-th decides:
    completed, and its summary is shown; anything else, and it was the 30th
    and the handler has given up.  Otherwise the upload is the only
    request. *)
Lemma summarizeFile_shape :
  let o := invoke tr summarizeFile s in
  match tr 0 (uploadRequest s f) with
  | Fulfilled d =>
      let docId := get d "document_id" in
      exists k,
        1 <= k <= maxAttempts /\
        observable (events o) =
          EvRequest (uploadRequest s f) :: pollEvents docId k /\
        (forall i, 1 <= i < k ->
                   notReady (tr i (GetDocument docId)) = true) /\
        match tr k (GetDocument docId) with
        | Fulfilled data =>
            if strictEqStr (get data "status") (js "completed")
            then Succeeded (final o) docId (get data "summary")
            else k = maxAttempts /\
                 Failed (final o)
                   (js "Summary generation is taking longer than expected. Please check back later.") /\
                 documentId (final o) = docId
        | FulfilledNull | Rejected _ =>
            k = maxAttempts /\
            Failed (final o)
              (js "Summary generation is taking longer than expected. Please check back later.") /\
            documentId (final o) = docId
        end
  | FulfilledNull | Rejected _ =>
      observable (events o) = [EvRequest (uploadRequest s f)] /\
      Failed (final o)
        (js "Error uploading or processing document. Please try again.") /\
      documentId (final o) = documentId s
  end.
Proof.
  intros o.
  destruct (tr 0 (uploadRequest s f)) as [d| |reason] eqn:Hu.
  - intros docId.
    destruct (first_false (fun i => notReady (tr (1 + i) (GetDocument docId)))
                maxAttempts) as [Hall|(j & Hj & Hlt & Hjf)].
    + destruct (summarizeFile_gives_up d Hu Hall) as (Hobs & Hfail & Hdoc).
      exists maxAttempts. split; [unfold maxAttempts; lia|]. split; [done|].
      split.
      { intros i Hi. replace i with (1 + (i - 1)) by lia. apply Hall. lia. }
      pose proof (Hall (maxAttempts - 1)) as Hlast.
      change (1 + (maxAttempts - 1)) with maxAttempts in Hlast.
      specialize (Hlast ltac:(unfold maxAttempts; lia)).
      destruct (tr maxAttempts (GetDocument docId)) as [data| |r]; [|done..].
      simpl in Hlast. apply negb_true_iff in Hlast. by rewrite Hlast.
    + simpl in Hjf.
      destruct (tr (S j) (GetDocument docId)) as [data| |r] eqn:Hr; [|done..].
      simpl in Hjf. apply negb_false_iff in Hjf.
      destruct (summarizeFile_completes tr s f Hfile d j data Hu Hj Hlt Hr Hjf)
        as (_ & Hobs & Hs).
      exists (S j). split; [lia|]. split.
      { fold o docId in Hobs. by replace (S j) with (j + 1) by lia. }
      split.
      { intros i Hi. replace i with (1 + (i - 1)) by lia. apply Hlt. lia. }
      by rewrite Hr, Hjf.
  - subst o. unfold invoke, summarizeFile. rewrite Hfile. cbn.
    unfold uploadRequest in Hu. rewrite Hu. cbn.
    unfold Failed. by destruct s.
  - subst o. unfold invoke, summarizeFile. rewrite Hfile. cbn.
    unfold uploadRequest in Hu. rewrite Hu. cbn.
    unfold Failed. by destruct s.
Qed.

End FileSubmissionShape.

(** Witness of C2: the transport [neverReady] on the render with
    [report] selected. *)
Lemma polling_gives_up_after_maxAttempts_witness :
  let o := invoke Scenario.neverReady summarizeFile Scenario.withReport in
  result o = Some tt /\
  statusQueries (events o) = 30 /\
  observable (events o) =
    EvRequest (uploadRequest Scenario.withReport Scenario.report)
      :: pollEvents (JStr (js "d2")) 30 /\
  Failed (final o)
    (js "Summary generation is taking longer than expected. Please check back later.") /\
  documentId (final o) = JStr (js "d2").
Proof.
  exact (polling_gives_up_after_maxAttempts Scenario.neverReady
           Scenario.withReport Scenario.report ltac:(reflexivity)
           {[ js "document_id" := JStr (js "d2") ]}
           ltac:(reflexivity) ltac:(intros i _; reflexivity)).
Defined.

(** Witness of C3, with [k = 0]: one rejected poll, then a completed one. *)
Lemma rejected_poll_is_retried_witness :
  let o := invoke Scenario.flakyOnce summarizeFile Scenario.withReport in
  result o = Some tt /\
  statusQueries (events o) = 2 /\
  Succeeded (final o) (JStr (js "d2")) (JStr (js "Done.")).
Proof.
  exact (rejected_poll_is_retried Scenario.flakyOnce Scenario.withReport
           Scenario.report ltac:(reflexivity)
           {[ js "document_id" := JStr (js "d2") ]} 0
           (JStr (js "Network Error"))
           {[ js "status" := JStr (js "completed");
              js "summary" := JStr (js "Done.") ]}
           ltac:(reflexivity) ltac:(unfold maxAttempts; lia)
           ltac:(intros i Hi; lia) ltac:(reflexivity) ltac:(reflexivity)
           ltac:(reflexivity)).
Defined.

(** Witness of C7: the upload is rejected by the [offline] transport. *)
Lemma failed_upload_is_not_polled_witness :
  let o := invoke Scenario.offline summarizeFile Scenario.withReport in
  result o = Some tt /\
  statusQueries (events o) = 0 /\
  requests (events o) =
    [EvRequest (uploadRequest Scenario.withReport Scenario.report)] /\
  Failed (final o)
    (js "Error uploading or processing document. Please try again.").
Proof.
  exact (failed_upload_is_not_polled Scenario.offline Scenario.withReport
           Scenario.report ltac:(reflexivity) (JStr (js "Network Error"))
           ltac:(reflexivity)).
Defined.

(** Witness of C8: the transport [readyOnThird]. *)
Lemma completes_on_third_poll_witness :
  let o := invoke Scenario.readyOnThird summarizeFile Scenario.withReport in
  result o = Some tt /\
  statusQueries (events o) = 3 /\
  Succeeded (final o) (JStr (js "d2")) (JStr (js "Done.")).
Proof.
  exact (completes_on_third_poll Scenario.readyOnThird Scenario.withReport
           Scenario.report ltac:(reflexivity)
           {[ js "document_id" := JStr (js "d2") ]}
           {[ js "status" := JStr (js "processing") ]}
           {[ js "status" := JStr (js "processing") ]}
           {[ js "status" := JStr (js "completed");
              js "summary" := JStr (js "Done.") ]}
           ltac:(reflexivity) ltac:(reflexivity) ltac:(reflexivity)
           ltac:(reflexivity) ltac:(reflexivity) ltac:(reflexivity)
           ltac:(reflexivity) ltac:(reflexivity) ltac:(reflexivity)).
Defined.

(** ** [summarizeText] and the options *)

Section SummarizeText.

Context (tr : Transport).

Lemma dropWhile_all {A} (p : A -> bool) (l : list A) :
  Forall (fun x => p x = true) l -> dropWhile p l = [].
Proof. induction 1 as [|x l Hx _ IH]; simpl; [done|by rewrite Hx]. Qed.

(** A text of white space only trims to the empty string. *)
Lemma trim_blank t :
  Forall (fun c => isWhiteSpace c = true) t -> trim t = [].
Proof.
  intros H. unfold trim, trimEnd, trimStart. by rewrite (dropWhile_all _ _ H).
Qed.

(** C5. When the text is empty or holds white space only, [summarizeText]
    does nothing but show "Please enter some text to summarize": the run
    has no event at all, so no request is sent, and every other field of
    the store is as before. *)
Theorem blank_text_is_not_submitted s :
  Forall (fun c => isWhiteSpace c = true) (text s) ->
  let o := invoke tr Tool.summarizeText s in
  events o = [] /\
  final o = apply (SetError (js "Please enter some text to summarize")) s.
Proof.
  intros Hblank o. subst o.
  unfold invoke, Tool.summarizeText. by rewrite (trim_blank _ Hblank).
Qed.

(** The request [summarizeText] sends in state [s]. *)
Lemma summarizeText_request s :
  truthy (JStr (trim (text s))) = true ->
  requests (events (invoke tr Tool.summarizeText s)) =
  [EvRequest (PostSummarize (text s)
                (Js.or (get (requestOptions s) "maxLength") (int 150))
                (Js.or (get (requestOptions s) "minLength") (int 40)))].
Proof.
  intros Ht. unfold invoke, Tool.summarizeText. rewrite Ht. cbn.
  by destruct (tr 0 _).
Qed.

Lemma summarizeFile_request s f :
  file s = Some f ->
  exists polls,
    requests (events (invoke tr summarizeFile s)) =
    EvRequest (PostDocuments f
                 (Js.or (get (requestOptions s) "maxLength") (int 150))
                 (Js.or (get (requestOptions s) "minLength") (int 40)))
      :: polls.
Proof.
  intros Hf. destruct (tr 0 (uploadRequest s f)) as [d| |reason] eqn:Hu.
  - rewrite (summarizeFile_uploaded tr s f d Hf Hu). cbn. eauto.
  - unfold invoke, summarizeFile. rewrite Hf. cbn.
    unfold uploadRequest in Hu. rewrite Hu. cbn. eauto.
  - unfold invoke, summarizeFile. rewrite Hf. cbn.
    unfold uploadRequest in Hu. rewrite Hu. cbn. eauto.
Qed.

(** C1, as the code has it.  Neither handler looks at the two lengths:
    whatever the options hold, a non-blank text is posted, and a selected
    file is uploaded, with [max_length = maxLength || 150] and
    [min_length = minLength || 40] read from the merged options; and
    [handleOptionsChange] stores [parseInt(value)] under the given name
    without comparing it with anything. *)
Theorem options_are_sent_unchecked s :
  (truthy (JStr (trim (text s))) = true ->
   requests (events (invoke tr Tool.summarizeText s)) =
   [EvRequest (PostSummarize (text s)
                 (Js.or (get (requestOptions s) "maxLength") (int 150))
                 (Js.or (get (requestOptions s) "minLength") (int 40)))]) /\
  (forall f, file s = Some f ->
     exists polls,
       requests (events (invoke tr summarizeFile s)) =
       EvRequest (PostDocuments f
                    (Js.or (get (requestOptions s) "maxLength") (int 150))
                    (Js.or (get (requestOptions s) "minLength") (int 40)))
         :: polls) /\
  (forall name value,
     summaryOptions (apply (handleOptionsChange name value s) s) =
     <[name := parseInt value]> (summaryOptions s)).
Proof.
  split; [apply summarizeText_request|].
  split; [apply summarizeFile_request|].
  intros name value. by destruct s.
Qed.

End SummarizeText.

(** C1 fails as stated: with the maximum-length slider at 50 and the
    minimum-length slider at 200, [summarizeText] posts the text with
    [max_length = 50] and [min_length = 200]. *)
Lemma inverted_lengths_are_submitted :
  let s := Scenario.invertedOptions in
  get (summaryOptions s) "minLength" = int 200 /\
  get (summaryOptions s) "maxLength" = int 50 /\
  numLe (get (summaryOptions s) "minLength") (get (summaryOptions s) "maxLength")
    = false /\
  requests (events (invoke Scenario.summarizing Tool.summarizeText s)) =
  [EvRequest (PostSummarize (js "Hello world") (int 50) (int 200))].
Proof. vm_compute. repeat split; reflexivity. Qed.

(** Witness of C1 as amended, on the same state. *)
Lemma options_are_sent_unchecked_witness :
  let s := Scenario.invertedOptions in
  requests (events (invoke Scenario.summarizing Tool.summarizeText s)) =
  [EvRequest (PostSummarize (text s)
                (Js.or (get (requestOptions s) "maxLength") (int 150))
                (Js.or (get (requestOptions s) "minLength") (int 40)))].
Proof.
  exact (proj1 (options_are_sent_unchecked Scenario.summarizing
                  Scenario.invertedOptions) ltac:(reflexivity)).
Defined.

(** Witness of C5: three blanks, a tab and a no-break space. *)
Lemma blank_text_is_not_submitted_witness :
  let s := apply (SetText (js "   " ++ [9%N; 160%N])) initial in
  let o := invoke Scenario.summarizing Tool.summarizeText s in
  events o = [] /\
  final o = apply (SetError (js "Please enter some text to summarize")) s.
Proof.
  exact (blank_text_is_not_submitted Scenario.summarizing
           (apply (SetText (js "   " ++ [9%N; 160%N])) initial)
           ltac:(repeat constructor)).
Defined.

(** ** [submitFeedback] *)

Section SubmitFeedback.

Context (tr : Transport).

(** The feedback request built from state [s]. *)
Lemma submitFeedback_request s :
  rating s <> 0%Z ->
  requests (events (invoke tr Tool.submitFeedback s)) =
  [EvRequest (PostFeedback (documentId s) (documentId s) (rating s)
                (feedback s) (summary s))].
Proof.
  intros Hr. unfold invoke, Tool.submitFeedback.
  destruct (Z.eqb_spec (rating s) 0) as [|_]; [done|]. cbn.
  by destruct (tr 0 _).
Qed.

(** Without a rating nothing is sent and only the error changes. *)
Lemma submitFeedback_unrated s :
  rating s = 0%Z ->
  let o := invoke tr Tool.submitFeedback s in
  events o = [] /\
  final o = apply (SetError (js "Please provide a rating before submitting feedback")) s.
Proof.
  intros Hr. unfold invoke, Tool.submitFeedback. by rewrite Hr.
Qed.

(** C9. [submitFeedback] with a rating sends one request.  If it is
    fulfilled (with a body or without: the handler does not read it), the
    rating is back at 0 and the comment is empty again (their initial
    values); if it is rejected, rating and comment are what they were, and
    so are the document id and the summary, so that the same feedback can be
    sent again. *)
Theorem feedback_form_reset_on_success_only s :
  rating s <> 0%Z ->
  let request := PostFeedback (documentId s) (documentId s) (rating s)
                              (feedback s) (summary s) in
  let o := invoke tr Tool.submitFeedback s in
  requests (events o) = [EvRequest request] /\
  match tr 0 request with
  | Fulfilled _ | FulfilledNull =>
      rating (final o) = rating initial /\
      feedback (final o) = feedback initial /\
      loading (final o) = false /\ error (final o) = js ""
  | Rejected _ =>
      rating (final o) = rating s /\
      feedback (final o) = feedback s /\
      documentId (final o) = documentId s /\
      summary (final o) = summary s /\
      Failed (final o) (js "Error submitting feedback. Please try again.")
  end.
Proof.
  intros Hr request o.
  split; [by apply submitFeedback_request|].
  subst o request. unfold invoke, Tool.submitFeedback.
  destruct (Z.eqb_spec (rating s) 0) as [|_]; [done|]. cbn.
  destruct (tr 0 _); cbn; unfold Failed; by destruct s.
Qed.

End SubmitFeedback.

(** Witness of C9, feedback accepted. *)
Lemma feedback_form_reset_on_success_only_witness :
  let o := invoke Scenario.summarizing Tool.submitFeedback Scenario.rated in
  requests (events o) =
    [EvRequest (PostFeedback (JStr (js "d1")) (JStr (js "d1")) 4
                  (js "Too short") (JStr (js "Hi.")))] /\
  rating (final o) = 0%Z /\ feedback (final o) = js "" /\
  loading (final o) = false /\ error (final o) = js "".
Proof.
  exact (feedback_form_reset_on_success_only Scenario.summarizing
           Scenario.rated ltac:(vm_compute; discriminate)).
Defined.

(** The same feedback against a transport that rejects it: the form keeps
    the four stars and the comment. *)
Example feedback_kept_when_rejected :
  let o := invoke Scenario.offline Tool.submitFeedback Scenario.rated in
  rating (final o) = 4%Z /\ feedback (final o) = js "Too short".
Proof. by vm_compute. Qed.

(** ** [countUniqueWords] against the count of distinct words *)

Section CountUniqueWords.

Variable toLowerCase : list N -> list N.

Lemma dropWhile_head {A} (p : A -> bool) l x r :
  dropWhile p l = x :: r -> p x = false.
Proof.
  induction l as [|y l IH]; simpl; [done|].
  destruct (p y) eqn:Hy; [done|]. by intros [= -> _].
Qed.

Lemma dropWhile_nil {A} (p : A -> bool) l :
  dropWhile p l = [] -> Forall (fun x => p x = true) l.
Proof.
  induction l as [|y l IH]; simpl; [constructor|].
  destruct (p y) eqn:Hy; [|done]. intros H. constructor; auto.
Qed.

Lemma dropWhile_keeps_last {A} (p : A -> bool) l c :
  p c = false -> exists l', dropWhile p (l ++ [c]) = l' ++ [c].
Proof.
  intros Hc. induction l as [|y l IH]; simpl.
  - rewrite Hc. by exists [].
  - destruct (p y); [done|]. by exists (y :: l).
Qed.

Lemma endsInWord_tail c r : r <> [] -> endsInWord (c :: r) -> endsInWord r.
Proof.
  unfold endsInWord. simpl. intros Hr.
  destruct (rev r) as [|x l] eqn:Hrev; [|done].
  apply (f_equal (@rev N)) in Hrev. rewrite rev_involutive in Hrev. done.
Qed.

Lemma endsInWord_single_ws c : isWhiteSpace c = true -> ~ endsInWord [c].
Proof. unfold endsInWord. simpl. congruence. Qed.

(** On a text that does not end in white space, splitting a word already
    begun, or a run of white space already entered, yields the words. *)
Lemma splitWs_go_tokens s :
  endsInWord s ->
  (forall cur, cur <> [] -> splitWs_go false cur s = tokens_go cur s) /\
  (s <> [] -> splitWs_go true [] s = tokens_go [] s).
Proof.
  induction s as [|c r IH]; intros He.
  - split; [|done]. intros [|x cur] Hc; done.
  - assert (Hr : isWhiteSpace c = true -> r <> []).
    { intros Hc ->. by apply (endsInWord_single_ws c). }
    assert (IH' : r <> [] ->
              (forall cur, cur <> [] -> splitWs_go false cur r = tokens_go cur r) /\
              (r <> [] -> splitWs_go true [] r = tokens_go [] r)).
    { intros Hne. apply IH. by eapply endsInWord_tail. }
    split.
    + intros cur Hcur. simpl. destruct (isWhiteSpace c) eqn:Hc.
      * destruct cur as [|x cur]; [done|].
        f_equal. apply IH'; auto.
      * destruct r as [|c' r']; [done|]. by apply IH'.
    + intros _. simpl. destruct (isWhiteSpace c) eqn:Hc.
      * apply IH'; auto.
      * destruct r as [|c' r']; [done|]. by apply IH'.
Qed.

Lemma splitWs_tokens c r :
  isWhiteSpace c = false -> endsInWord (c :: r) ->
  splitWs (c :: r) = tokens (c :: r).
Proof.
  intros Hc He. unfold splitWs, tokens. simpl. rewrite Hc.
  destruct r as [|c' r']; [done|].
  apply splitWs_go_tokens; [|done]. by eapply endsInWord_tail.
Qed.

(** White space at either end does not change the words. *)
Lemma tokens_go_snoc_ws s : forall cur w,
  isWhiteSpace w = true -> tokens_go cur (s ++ [w]) = tokens_go cur s.
Proof.
  induction s as [|c r IH]; intros cur w Hw; simpl.
  - rewrite Hw. by destruct cur.
  - destruct (isWhiteSpace c); [destruct cur|]; by rewrite IH.
Qed.

Lemma tokens_trimEnd s : tokens (trimEnd s) = tokens s.
Proof.
  unfold trimEnd, tokens. rewrite <- (rev_involutive s) at 2.
  induction (rev s) as [|x l IH]; [done|]. simpl.
  destruct (isWhiteSpace x) eqn:Hx; [|done].
  by rewrite tokens_go_snoc_ws.
Qed.

Lemma tokens_trimStart s : tokens (trimStart s) = tokens s.
Proof.
  unfold trimStart, tokens. induction s as [|c r IH]; [done|]. simpl.
  destruct (isWhiteSpace c) eqn:Hc; [done|]. simpl. by rewrite Hc.
Qed.

Lemma tokens_trim s : tokens (trim s) = tokens s.
Proof. unfold trim. by rewrite tokens_trimEnd, tokens_trimStart. Qed.

(** A trimmed text is empty, or begins and ends with a word. *)
Lemma trim_shape s :
  trim s = [] \/
  exists c r, trim s = c :: r /\ isWhiteSpace c = false /\ endsInWord (c :: r).
Proof.
  unfold trim, trimEnd. set (u := trimStart s).
  destruct u as [|c r] eqn:Hu; [by left|right].
  assert (Hc : isWhiteSpace c = false) by (by eapply dropWhile_head).
  simpl. destruct (dropWhile_keeps_last isWhiteSpace (rev r) c Hc) as [l' Hl'].
  rewrite Hl', rev_app_distr. simpl.
  exists c, (rev l'). split; [done|]. split; [done|].
  unfold endsInWord. simpl. rewrite rev_involutive.
  destruct l' as [|x l'']; [done|]. simpl.
  by apply (dropWhile_head isWhiteSpace (rev r ++ [c]) x (l'' ++ [c])).
Qed.

Lemma list_to_set_singleton_size (x : list N) :
  size (list_to_set [x] : gset (list N)) = 1.
Proof.
  by rewrite list_to_set_cons, list_to_set_nil, union_empty_r_L, size_singleton.
Qed.

(** On a text with at least one code unit that is not white space,
    [countUniqueWords] is the number of distinct lowercased words. *)
Lemma countUniqueWords_agrees t :
  Exists (fun c => isWhiteSpace c = false) t ->
  countUniqueWords toLowerCase (Some t) = distinctTokenCount toLowerCase (Some t).
Proof.
  intros Hex. unfold countUniqueWords, distinctTokenCount.
  destruct t as [|c0 t0] eqn:Ht; [by inversion Hex|]. rewrite <- Ht in *.
  rewrite <- (tokens_trim t).
  destruct (trim_shape t) as [Hnil|(c & r & Hcr & Hc & He)].
  - exfalso. unfold trim, trimEnd in Hnil.
    apply (f_equal (@rev N)) in Hnil. rewrite rev_involutive in Hnil. simpl in Hnil.
    apply dropWhile_nil in Hnil.
    assert (Hstart : trimStart t = []).
    { destruct (trimStart t) as [|x l] eqn:Hs; [done|].
      apply dropWhile_head in Hs.
      apply Forall_forall with (x := x) in Hnil; [congruence|].
      apply list_elem_of_In, in_rev. rewrite rev_involutive. by left. }
    apply dropWhile_nil in Hstart.
    apply Exists_exists in Hex as (x & Hx & Hnw).
    apply Forall_forall with (x := x) in Hstart; [congruence|done].
  - by rewrite Hcr, (splitWs_tokens c r Hc He).
Qed.

(** The empty and the absent text count 0 in both. *)
Lemma countUniqueWords_falsy :
  countUniqueWords toLowerCase None = 0 /\
  countUniqueWords toLowerCase (Some []) = 0 /\
  distinctTokenCount toLowerCase None = 0 /\
  distinctTokenCount toLowerCase (Some []) = 0.
Proof. repeat split; reflexivity. Qed.

(** A non-empty text of white space only has no word, and counts 1. *)
Lemma countUniqueWords_blank t :
  t <> [] -> Forall (fun c => isWhiteSpace c = true) t ->
  countUniqueWords toLowerCase (Some t) = 1 /\
  distinctTokenCount toLowerCase (Some t) = 0.
Proof.
  intros Hne Hb. unfold countUniqueWords, distinctTokenCount.
  rewrite <- (tokens_trim t), (trim_blank t Hb).
  destruct t; [done|]. split; [apply list_to_set_singleton_size|done].
Qed.

(** C10, at the input [" "]: a single blank has no word, yet
    [countUniqueWords] returns 1, the size of the set holding the one empty
    piece that [split] makes of the trimmed, empty text. *)
Theorem countUniqueWords_blank_counts_one :
  countUniqueWords toLowerCase (Some (js " ")) = 1 /\
  distinctTokenCount toLowerCase (Some (js " ")) = 0 /\
  splitWs (trim (js " ")) = [js ""].
Proof.
  split; [|split; reflexivity].
  apply countUniqueWords_blank; [done|]. by repeat constructor.
Qed.

End CountUniqueWords.

Example countUniqueWords_example :
  countUniqueWords asciiToLowerCase (Some (js "The the  cat sat")) = 3.
Proof. by vm_compute. Qed.

(** ** Client-side file validation *)

Section FileValidation.

Variable toLowerCase : list N -> list N.

(** [validateFiles] on one file: the size is looked at first, and the type
    only if the size is within the limit. *)
Lemma validateFiles_single p f :
  validateFiles toLowerCase p [f] =
  if tooLarge p f then
    (js "Cannot upload: " ++ file_name f ++ js " (exceeds "
       ++ showZ (maxSize p) ++ js "MB size limit)", None)
  else if typeAccepted toLowerCase p f then (js "", Some [f])
  else (js "Cannot upload: " ++ file_name f ++ js " (invalid file type)", None).
Proof.
  unfold validateFiles, tooLarge, typeAccepted. simpl.
  destruct (file_size f >? _)%Z; [done|].
  by destruct (existsb _ _).
Qed.

(** A file that breaks a constraint never reaches [onFileSelect]; the
    selection of the control is left as it was. *)
Lemma handleChange_rejects l f st :
  tooLarge (toolProps l) f = true \/ typeAccepted toLowerCase (toolProps l) f = false ->
  snd (handleChange toLowerCase (toolProps l) [f] st) = None /\
  fu_selectedFiles (fst (handleChange toLowerCase (toolProps l) [f] st)) =
  fu_selectedFiles st.
Proof.
  intros H. unfold handleChange.
  change (if multiple (toolProps l) then [f] else [f]) with [f].
  rewrite validateFiles_single.
  destruct (tooLarge (toolProps l) f); [done|].
  destruct H as [ | -> ]; done.
Qed.

(** A file within both constraints is handed to [onFileSelect]. *)
Lemma handleChange_accepts l f st :
  tooLarge (toolProps l) f = false -> typeAccepted toLowerCase (toolProps l) f = true ->
  snd (handleChange toLowerCase (toolProps l) [f] st) = Some (SelOne (Some f)).
Proof.
  intros Hs Ht. unfold handleChange.
  change (if multiple (toolProps l) then [f] else [f]) with [f].
  by rewrite validateFiles_single, Hs, Ht.
Qed.

(** The standalone [validateFile] reports each violated constraint. *)
Lemma validateFile_lists_every_violation f :
  let sizeError := js "File size exceeds 10MB limit" in
  let typeError :=
    js "File type not allowed. Allowed types: .txt, .pdf, .docx, .doc" in
  let big := (file_size f >? MAX_SIZE)%Z in
  let odd := negb (bool_decide (extensionOf toLowerCase (file_name f)
                                  ∈ ALLOWED_EXTENSIONS)) in
  validateFile toLowerCase (Some f) =
  (negb big && negb odd,
   (if big then [sizeError] else []) ++ (if odd then [typeError] else [])).
Proof.
  unfold validateFile. cbv zeta.
  destruct (file_size f >? MAX_SIZE)%Z;
    destruct (bool_decide (extensionOf toLowerCase (file_name f)
                             ∈ ALLOWED_EXTENSIONS)); reflexivity.
Qed.

End FileValidation.

(** Without a selected file [summarizeFile] sends nothing. *)
Lemma summarizeFile_without_file tr s :
  file s = None ->
  events (invoke tr summarizeFile s) = [] /\
  final (invoke tr summarizeFile s) =
  apply (SetError (js "Please select a file to upload")) s.
Proof. intros Hf. unfold invoke, summarizeFile. by rewrite Hf. Qed.

Lemma handleChange_single toLowerCase l f fu :
  handleChange toLowerCase (toolProps l) [f] fu =
  if accepted toLowerCase (toolProps l) f
  then (mkFU (js "") [f], Some (SelOne (Some f)))
  else (mkFU (js "Cannot upload: "
                ++ default [] (rejection toLowerCase (toolProps l) f))
             (fu_selectedFiles fu), None).
Proof.
  unfold handleChange, accepted, rejection.
  change (if multiple (toolProps l) then [f] else [f]) with [f].
  rewrite validateFiles_single.
  destruct (tooLarge (toolProps l) f); [done|].
  by destruct (typeAccepted toLowerCase (toolProps l) f).
Qed.

(** The tool's control never passes an array to [onFileSelect]. *)
Lemma handleChange_passes_one_file toLowerCase l files fu fs :
  snd (handleChange toLowerCase (toolProps l) files fu) <> Some (SelMany fs).
Proof.
  unfold handleChange. destruct files as [|first rest]; [done|].
  change (multiple (toolProps l)) with false. cbv iota.
  by destruct (validateFiles toLowerCase (toolProps l) [first]) as [err [v|]].
Qed.

(** X8. Only a file the upload control accepts becomes the tool's file.
    A file [f] is chosen in the enabled control.  If [f] is within the size
    limit and of an accepted type, [handleFileUpload] stores it, the upload
    button is enabled, and its click sends the upload request for [f].  If
    [f] is too large or of another type, no [onFileSelect] call is made: the
    tool is exactly as it was, the control keeps its selection and shows
    why, and where no file was selected before, the upload button stays
    disabled and [summarizeFile] itself would send nothing. *)
Lemma rejected_file_is_never_uploaded toLowerCase f fu w :
  rendered w = true -> loading (store w) = false ->
  let chosen := chooseFiles toLowerCase [f] fu w in
  if accepted toLowerCase (toolProps false) f then
    file (store (snd chosen)) = Some f /\
    fu_selectedFiles (fst chosen) = [f] /\
    snd (step (snd chosen) (User ClickSummarizeFile)) =
      [EvRequest (uploadRequest (store (snd chosen)) f)]
  else
    snd chosen = w /\
    fu_selectedFiles (fst chosen) = fu_selectedFiles fu /\
    fu_error (fst chosen) =
      js "Cannot upload: "
        ++ default [] (rejection toLowerCase (toolProps false) f) /\
    (file (store w) = None ->
     enabled ClickSummarizeFile (store (snd chosen)) = false /\
     snd (step (snd chosen) (User ClickSummarizeFile)) = [] /\
     forall tr, events (invoke tr summarizeFile (store (snd chosen))) = []).
Proof.
  intros Hr Hl chosen. subst chosen. unfold chooseFiles.
  rewrite Hr, Hl. cbn [andb negb]. rewrite handleChange_single.
  destruct (accepted toLowerCase (toolProps false) f).
  - cbn [fst snd fu_selectedFiles].
    assert (Hstep : fst (step w (User (SelectFile (Some f)))) =
                    mkInstance (applyAll (handleFileUpload (Some f) (store w))
                                  (store w))
                      (inflight w) (timers w) (rendered w)).
    { unfold step, enabled, dispatch. rewrite Hl. cbn [negb].
      rewrite andb_true_r. pattern (rendered w) at 1. by rewrite Hr. }
    rewrite Hstep. clear Hstep.
    set (s' := applyAll (handleFileUpload (Some f) (store w)) (store w)).
    assert (Hs' : file s' = Some f /\ loading s' = false).
    { unfold s', handleFileUpload, applyAll.
      destruct (store w); simpl in *.
      by destruct (truthy _). }
    destruct Hs' as [Hf' Hl'].
    split; [done|]. split; [done|].
    unfold step, enabled. cbn [rendered store]. rewrite Hr, Hl', Hf'.
    cbn [negb orb andb bool_decide]. rewrite bool_decide_true by by eexists.
    cbn [negb andb].
    unfold dispatch, start, void, summarizeFile. cbn [store]. rewrite Hf'.
    by cbn.
  - cbn [fst snd fu_selectedFiles fu_error].
    split; [done|]. split; [done|]. split; [done|].
    intros Hnone.
    assert (Hen : enabled ClickSummarizeFile (store w) = false).
    { unfold enabled. rewrite Hnone, Hl. done. }
    split; [done|]. split.
    + unfold step. by rewrite Hen, andb_false_r.
    + intros tr. by apply summarizeFile_without_file.
Qed.

(** C4, at a 15 MB [big.exe]: the file breaks the size limit and the type
    set, the upload control names the size only and makes no
    [onFileSelect] call, whereas [validateFile] lists both violations. *)
Theorem oversized_wrong_type_reports_size_only :
  let p := toolProps false in
  tooLarge p Scenario.bigExe = true /\
  typeAccepted asciiToLowerCase p Scenario.bigExe = false /\
  handleChange asciiToLowerCase p [Scenario.bigExe] (mkFU (js "") []) =
    (mkFU (js "Cannot upload: big.exe (exceeds 10MB size limit)") [], None) /\
  validateFile asciiToLowerCase (Some Scenario.bigExe) =
    (false, [js "File size exceeds 10MB limit";
             js "File type not allowed. Allowed types: .txt, .pdf, .docx, .doc"]).
Proof. by vm_compute. Qed.

(** ** Handlers in flight *)

Section InFlight.

Lemma loading_apply u s : loading (apply u s) = loadingAfter u (loading s).
Proof. by destruct s, u. Qed.

Lemma loadingAfter_untouched u l :
  touchesLoading u = false -> loadingAfter u l = l.
Proof. by destruct u. Qed.

Lemma busy_bind_quiet {A B} (t : Task A) (f : A -> Task B) :
  quiet t -> (forall a, busy true (f a)) -> busy true (bind t f).
Proof.
  intros Hq Hf.
  induction t as [a|u k IH|m k IH|ms u k IH|ms k IH|r k IH]; simpl in *.
  - apply Hf.
  - destruct Hq as [Hu Hq]. rewrite (loadingAfter_untouched u true Hu). auto.
  - auto.
  - destruct Hq as [Hu Hq]. auto.
  - auto.
  - split; [done|]. auto.
Qed.

Lemma busy_void {A} (t : Task A) l : busy l t -> busy l (void t).
Proof.
  unfold void. revert l.
  induction t as [a|u k IH|m k IH|ms u k IH|ms k IH|r k IH]; intros l; simpl;
    try done; auto.
  - intros [Hu Hk]. auto.
  - intros [Hl Hk]. auto.
  - intros [Hl Hk]. auto.
Qed.

Lemma quiet_pollLoop fuel : forall docId ready attempts,
  quiet (pollLoop fuel docId ready attempts).
Proof.
  induction fuel as [|fuel IH]; intros docId ready attempts;
    unfold pollLoop; fold pollLoop;
    destruct (negb ready && (attempts <? maxAttempts)); try done.
  cbn. intros [data| |reason]; cbn.
  - destruct (strictEqStr _ _); cbn; auto.
  - auto.
  - auto.
Qed.

(** Each asynchronous handler sets [loading] before its first [await] and
    clears it only after its last. *)
Lemma busy_summarizeText s l : busy l (Tool.summarizeText s).
Proof.
  unfold Tool.summarizeText.
  destruct (negb _); cbn; [done|].
  split; [done|]. by intros [data| |reason].
Qed.

Lemma busy_submitFeedback s l : busy l (Tool.submitFeedback s).
Proof.
  unfold Tool.submitFeedback.
  destruct (rating s =? 0)%Z; cbn; [done|].
  split; [done|]. by intros [data| |reason].
Qed.

Lemma busy_summarizeFile s l : busy l (summarizeFile s).
Proof.
  unfold summarizeFile.
  destruct (file s) as [f|]; cbn; [|done].
  split; [done|]. intros [data| |reason]; cbn; [|done..].
  apply busy_bind_quiet; [apply quiet_pollLoop|].
  intros [[]|]; by cbn.
Qed.

(** Running a busy task to its next suspension point keeps the promise:
    if it suspends, [loading] is set, and what it deferred leaves
    [loading] alone. *)
Lemma advance_busy t : forall s,
  busy (loading s) t ->
  let p := advance t s in
  Forall (fun u => touchesLoading u = false) (p_timers p) /\
  match p_next p with
  | None => True
  | Some q => loading (p_store p) = true /\ suspendedBusy q
  end.
Proof.
  induction t as [a|u k IH|m k IH|ms u k IH|ms k IH|r k IH]; intros s Hb;
    simpl in *.
  - by split.
  - apply IH. by rewrite loading_apply.
  - by apply IH.
  - destruct Hb as [Hu Hk]. destruct (IH s Hk) as [Ht Hn].
    split; [by constructor|done].
  - destruct Hb as [Hl Hk]. split; [constructor|]. split; [done|].
    simpl. by rewrite Hl in Hk.
  - destruct Hb as [Hl Hk]. split; [constructor|]. split; [done|].
    simpl. intros x. specialize (Hk x). by rewrite Hl in Hk.
Qed.

(** The two readings of a task agree: a run is the synchronous prefix up to
    the first suspension, then the run of what is resumed. *)
Lemma run_advance tr (t : Task unit) n s :
  run tr t n s =
  let p := advance t s in
  match p_next p with
  | None => mkOutcome tt (p_store p) (p_events p)
  | Some (AtTimer _ k) => after (p_events p) (run tr k n (p_store p))
  | Some (AtRequest r k) =>
      after (p_events p) (run tr (k (tr n r)) (S n) (p_store p))
  end.
Proof.
  revert s.
  induction t as [[]|u k IH|m k IH|ms u k IH|ms k IH|r k IH]; intros s; simpl.
  - done.
  - apply IH.
  - rewrite IH. cbv zeta. by destruct (p_next (advance k s)) as [[? ?|? ?]|].
  - rewrite IH. cbv zeta. by destruct (p_next (advance k s)) as [[? ?|? ?]|].
  - by destruct (run tr k n s).
  - by destruct (run tr (k (tr n r)) (S n) s).
Qed.

(** With no handler in flight, timers and replies find nothing to resume. *)
Lemma idle_instance_ignores_network w j reply :
  inflight w = [] ->
  step w (TimerFires j) = (w, []) /\ step w (ReplyArrives j reply) = (w, []).
Proof. intros H. simpl. by rewrite H. Qed.

Lemma enabled_not_loading i s : enabled i s = true -> loading s = false.
Proof.
  unfold enabled. destruct i, (loading s); simpl; try done;
    by rewrite ?andb_false_r.
Qed.

Lemma applyAll_loading us s :
  Forall (fun u => touchesLoading u = false) us ->
  loading (applyAll us s) = loading s.
Proof.
  unfold applyAll. intros H. revert s.
  induction H as [|u us Hu _ IH]; intros s; simpl; [done|].
  by rewrite IH, loading_apply, loadingAfter_untouched.
Qed.

(** Starting a busy handler when none is in flight. *)
Lemma start_oneInFlight t w :
  oneInFlight w -> inflight w = [] -> rendered w = true ->
  busy (loading (store w)) t ->
  oneInFlight (fst (start t w)).
Proof.
  intros [Ht _] Hnil Hr Hb.
  destruct (advance_busy t (store w) Hb) as [Ht' Hn].
  unfold oneInFlight, start, commit. simpl. rewrite Hnil, Hr. simpl.
  split; [by apply Forall_app|].
  by destruct (p_next (advance t (store w))).
Qed.

(** Resuming the handler in flight. *)
Lemma resume_oneInFlight t w p :
  oneInFlight w -> inflight w = [p] -> busy true t ->
  oneInFlight (fst (resume 0 t w)).
Proof.
  intros [Ht Hin] Hp Hb. rewrite Hp in Hin. destruct Hin as [Hl _].
  rewrite <- Hl in Hb.
  destruct (advance_busy t (store w) Hb) as [Ht' Hn].
  unfold oneInFlight, resume, commit. simpl. rewrite Hp. simpl.
  split; [by apply Forall_app|].
  destruct (p_next (advance t (store w))); [|done].
  simpl. destruct (rendered w); [done|]. by destruct Hn.
Qed.

Lemma step_oneInFlight w i : oneInFlight w -> oneInFlight (fst (step w i)).
Proof.
  intros Hw. destruct i as [intent|j|j reply|j|]; simpl.
  - destruct (rendered w) eqn:Hr; simpl; [|done].
    destruct (enabled intent (store w)) eqn:Hen; [|done].
    apply enabled_not_loading in Hen.
    assert (Hnil : inflight w = []).
    { destruct Hw as [_ Hin]. destruct (inflight w) as [|p [|q l]]; [done| |done].
      destruct Hin as [Hl _]. congruence. }
    assert (Hsync : forall us,
               oneInFlight (mkInstance (applyAll us (store w)) (inflight w)
                              (timers w) (rendered w))).
    { intros us. destruct Hw as [Ht _]. split; [done|]. simpl. by rewrite Hnil. }
    destruct intent;
      try match goal with
          | |- oneInFlight (fst (dispatch ?i w)) =>
              match eval hnf in (dispatch i w) with
              | (mkInstance (applyAll ?us _) _ _ _, _) => exact (Hsync us)
              end
          end.
    + apply start_oneInFlight; [done..|apply busy_summarizeText].
    + apply start_oneInFlight; [done..|apply busy_void, busy_summarizeFile].
    + apply start_oneInFlight; [done..|apply busy_submitFeedback].
  - destruct (inflight w !! j) as [[ms k|r k]|] eqn:Hj; [|done..].
    destruct Hw as [Ht Hin]. destruct (inflight w) as [|p [|q l]] eqn:Hp; [done| |done].
    destruct j; [|done]. simpl in Hj. injection Hj as ->.
    destruct Hin as [Hl Hk].
    apply (resume_oneInFlight k w (AtTimer ms k)); [by split; [|rewrite Hp]|done..].
  - destruct (inflight w !! j) as [[ms k|r k]|] eqn:Hj; [done| |done].
    destruct Hw as [Ht Hin]. destruct (inflight w) as [|p [|q l]] eqn:Hp; [done| |done].
    destruct j; [|done]. simpl in Hj. injection Hj as ->.
    destruct Hin as [Hl Hk].
    apply (resume_oneInFlight (k reply) w (AtRequest r k));
      [by split; [|rewrite Hp]|done|apply Hk].
  - destruct (timers w !! j) as [u|] eqn:Hj; [|done].
    destruct Hw as [Ht Hin]. split; simpl.
    + apply Forall_app. split.
      * by apply Forall_take.
      * by apply Forall_drop.
    + assert (Hu : touchesLoading u = false).
      { eapply (Forall_lookup_1 _ _ _ _ Ht Hj). }
      destruct (inflight w) as [|p [|q l]]; [done| |done].
      unfold commit. destruct (rendered w); [|done].
      by rewrite loading_apply, loadingAfter_untouched.
  - by destruct Hw.
Qed.

Lemma steps_oneInFlight inputs : forall w,
  oneInFlight w -> oneInFlight (fst (steps w inputs)).
Proof.
  induction inputs as [|i rest IH]; intros w Hw; simpl; [done|].
  pose proof (step_oneInFlight w i Hw) as H1.
  destruct (step w i) as [w1 ev1]. specialize (IH w1 H1).
  by destruct (steps w1 rest).
Qed.

Lemma mounted_oneInFlight : oneInFlight mounted.
Proof. by split. Qed.

(** The store decides only the final store of a task: what it does to the
    outside, what it defers and where it suspends are the same on every
    store. *)
Lemma advance_store_irrelevant t : forall s1 s2,
  p_events (advance t s1) = p_events (advance t s2) /\
  p_timers (advance t s1) = p_timers (advance t s2) /\
  p_next (advance t s1) = p_next (advance t s2).
Proof.
  induction t as [a|u k IH|m k IH|ms u k IH|ms k IH|r k IH]; intros s1 s2;
    simpl.
  - done.
  - apply IH.
  - destruct (IH s1 s2) as (-> & -> & ->). done.
  - destruct (IH s1 s2) as (-> & -> & ->). done.
  - done.
  - done.
Qed.

Lemma loading_disables i s : loading s = true -> enabled i s = false.
Proof.
  intros Hl. destruct (enabled i s) eqn:He; [|done].
  apply enabled_not_loading in He. congruence.
Qed.

(** While a handler is in flight the user's inputs change nothing but
    whether the component is rendered. *)
Lemma interrupts_change_nothing ins : forall w,
  Forall (fun i => isInterrupt i = true) ins ->
  (rendered w = true -> loading (store w) = true) ->
  exists r,
    steps w ins = (mkInstance (store w) (inflight w) (timers w) r, []) /\
    (r = true -> rendered w = true).
Proof.
  induction ins as [|i rest IH]; intros w Hins Hl.
  - exists (rendered w). by destruct w.
  - inversion Hins as [|? ? Hi Hrest]; subst.
    destruct i as [intent| | | |]; try done.
    + assert (Hstep : step w (User intent) = (w, [])).
      { simpl. destruct (rendered w); [|done].
        by rewrite (loading_disables intent _ (Hl eq_refl)). }
      destruct (IH w Hrest Hl) as (r & Hr & Hrr).
      exists r. cbn [steps]. rewrite Hstep, Hr. done.
    + destruct (IH (mkInstance (store w) (inflight w) (timers w) false) Hrest)
        as (r & Hr & Hrr); [done|].
      exists r. cbn [steps step]. rewrite Hr. split; [done|].
      intros Hrt. by specialize (Hrr Hrt).
Qed.

Lemma suspensions_cons e ev :
  suspensions (e :: ev) =
  (if match e with EvSleep _ | EvRequest _ => true | _ => false end
   then S (suspensions ev) else suspensions ev).
Proof. unfold suspensions. simpl. by destruct e. Qed.

(** Driving a suspended handler to its end, the user acting in between,
    yields the events of the uninterrupted run.  [t] is what the handler
    runs next and [s] the store it would have without navigation. *)
Lemma drive_uninterrupted tr (t : Task unit) : forall s w n between,
  inflight w = option_list (p_next (advance t s)) ->
  (rendered w = true ->
   store w = p_store (advance t s) /\ busy (loading s) t) ->
  Forall (Forall (fun i => isInterrupt i = true)) between ->
  suspensions (events (run tr t n s)) <= length between ->
  inflight (fst (drive tr between n w)) = [] /\
  p_events (advance t s) ++ snd (drive tr between n w) =
    events (run tr t n s).
Proof.
  induction t as [a|u k IH|m k IH|ms u k IH|ms k IH|r k IH];
    intros s w n between Hin Hw Hbetween Hlen.
  - simpl in Hin. destruct between; simpl; by rewrite Hin.
  - simpl. apply IH; try done.
    intros Hr. destruct (Hw Hr) as [Hs Hb]. split; [done|].
    simpl in Hb. by rewrite loading_apply.
  - simpl in *. rewrite suspensions_cons in Hlen.
    destruct (IH s w n between Hin Hw Hbetween Hlen) as [H1 H2].
    split; [done|]. by rewrite <- H2.
  - simpl in *. rewrite suspensions_cons in Hlen.
    destruct (IH s w n between Hin) as [H1 H2]; try done.
    { intros Hr. destruct (Hw Hr) as [Hs [_ Hb]]. done. }
    split; [done|]. by rewrite <- H2.
  - simpl in Hin, Hw, Hlen. rewrite suspensions_cons in Hlen.
    destruct between as [|ins rest]; [simpl in Hlen; lia|].
    inversion Hbetween as [|? ? Hins Hrest]; subst.
    destruct (interrupts_change_nothing ins w Hins) as (r & Hsteps & Hr).
    { intros Hrw. destruct (Hw Hrw) as [-> [Hl _]]. done. }
    cbn [drive]. rewrite Hin. cbn [option_list]. rewrite Hsteps.
    cbn [inflight]. rewrite Hin. cbn [option_list].
    set (w0 := mkInstance (store w) [AtTimer ms k] (timers w) r).
    destruct (advance_store_irrelevant k (store w) s) as (He & _ & Hn).
    destruct (IH s (fst (step w0 (TimerFires 0))) n rest) as [H1 H2].
    + simpl. by rewrite Hn, app_nil_r.
    + simpl. intros Hrt. destruct (Hw (Hr Hrt)) as [Hs [_ Hb]].
      unfold commit. simpl. rewrite Hrt, Hs. done.
    + done.
    + simpl in Hlen. lia.
    + destruct (step w0 (TimerFires 0)) as [w1 e1] eqn:Hstep.
      assert (He1 : e1 = p_events (advance k s)).
      { simpl in Hstep. injection Hstep as _ <-. done. }
      simpl in H1, H2.
      destruct (drive tr rest n w1) as [w2 e2]. simpl in *.
      split; [done|]. by rewrite He1, H2.
  - simpl in Hin, Hw, Hlen. rewrite suspensions_cons in Hlen.
    destruct between as [|ins rest]; [simpl in Hlen; lia|].
    inversion Hbetween as [|? ? Hins Hrest]; subst.
    destruct (interrupts_change_nothing ins w Hins) as (r0 & Hsteps & Hr).
    { intros Hrw. destruct (Hw Hrw) as [-> [Hl _]]. done. }
    cbn [drive]. rewrite Hin. cbn [option_list]. rewrite Hsteps.
    cbn [inflight]. rewrite Hin. cbn [option_list].
    set (w0 := mkInstance (store w) [AtRequest r k] (timers w) r0).
    destruct (advance_store_irrelevant (k (tr n r)) (store w) s)
      as (He & _ & Hn).
    destruct (IH (tr n r) s (fst (step w0 (ReplyArrives 0 (tr n r)))) (S n) rest)
      as [H1 H2].
    + simpl. by rewrite Hn, app_nil_r.
    + simpl. intros Hrt. destruct (Hw (Hr Hrt)) as [Hs [_ Hb]].
      unfold commit. simpl. rewrite Hrt, Hs. done.
    + done.
    + simpl in Hlen. lia.
    + destruct (step w0 (ReplyArrives 0 (tr n r))) as [w1 e1] eqn:Hstep.
      assert (He1 : e1 = p_events (advance (k (tr n r)) s)).
      { simpl in Hstep. injection Hstep as _ <-. done. }
      simpl in H1, H2.
      destruct (drive tr rest (S n) w1) as [w2 e2]. simpl in *.
      split; [done|]. by rewrite He1, H2.
Qed.

Lemma run_void {A} tr (t : Task A) n s :
  events (run tr (void t) n s) = events (run tr t n s).
Proof.
  unfold void. rewrite run_bind. simpl. by rewrite app_nil_r.
Qed.

Lemma suspensions_observable ev :
  suspensions (observable ev) = suspensions ev.
Proof.
  unfold suspensions, observable.
  induction ev as [|[| | |] ev IH]; simpl; congruence.
Qed.

Lemma suspensions_pollEvents docId k :
  suspensions (pollEvents docId k) = 2 * k.
Proof.
  induction k as [|k IH]; [done|].
  rewrite pollEvents_S. unfold suspensions in *.
  rewrite List.filter_app, length_app, IH. simpl. lia.
Qed.

(** A run of [summarizeFile] suspends at most [2 * maxAttempts + 1]
    times. *)
Lemma summarizeFile_suspensions tr s f :
  file s = Some f ->
  suspensions (events (invoke tr summarizeFile s)) <= 2 * maxAttempts + 1.
Proof.
  intros Hf. rewrite <- suspensions_observable.
  pose proof (summarizeFile_shape tr s f Hf) as H. cbv zeta in H.
  destruct (tr 0 (uploadRequest s f)) as [d| |reason].
  - destruct H as (k & Hk & Hobs & _). rewrite Hobs, suspensions_cons.
    rewrite suspensions_pollEvents. lia.
  - destruct H as (-> & _). cbn. lia.
  - destruct H as (-> & _). cbn. lia.
Qed.

(** C6, as the code has it.  In every state the component can reach, at
    most one handler is in flight; while one is, [loading] is set, every
    control is disabled and a user intent changes nothing.  And nothing
    cancels the handler in flight: once "Upload & Summarize" is clicked,
    whatever the user does before each of its resumptions (act on a
    control, navigate away), the requests, delays and console output are
    those of the uninterrupted run.  After a successful upload these are
    [k] status queries, where every reply before the [k]-th is not ready and
    either [k = 30] or the [k]-th reply is completed: the loop goes on
    until a completed reply or its 30th attempt. *)
Theorem one_submission_in_flight_and_no_cancel inputs tr s f between :
  (let w := fst (steps mounted inputs) in
   length (inflight w) <= 1 /\
   (inflight w <> [] ->
    loading (store w) = true /\ forall i, step w (User i) = (w, []))) /\
  (loading s = false -> file s = Some f ->
   Forall (Forall (fun i => isInterrupt i = true)) between ->
   2 * maxAttempts + 1 <= length between ->
   let clicked := step (mkInstance s [] [] true) (User ClickSummarizeFile) in
   let driven := drive tr between 0 (fst clicked) in
   let ev := snd clicked ++ snd driven in
   inflight (fst driven) = [] /\
   ev = events (invoke tr summarizeFile s) /\
   forall d, tr 0 (uploadRequest s f) = Fulfilled d ->
     let docId := get d "document_id" in
     exists k,
       1 <= k <= maxAttempts /\
       observable ev = EvRequest (uploadRequest s f) :: pollEvents docId k /\
       (forall i, 1 <= i < k ->
                  notReady (tr i (GetDocument docId)) = true) /\
       (k = maxAttempts \/ notReady (tr k (GetDocument docId)) = false)).
Proof.
  split.
  - intros w.
    pose proof (steps_oneInFlight inputs mounted mounted_oneInFlight) as [_ Hin].
    fold w in Hin.
    destruct (inflight w) as [|p [|q l]]; simpl; [split; [lia|done]| |done].
    split; [lia|]. intros _. destruct Hin as [Hl _]. split; [done|].
    intros i. simpl. destruct (rendered w); [|done]. simpl.
    destruct (enabled i (store w)) eqn:Hen; [|done].
    apply enabled_not_loading in Hen. congruence.
  - intros Hl Hf Hbetween Hlen clicked driven ev.
    assert (Hclicked : clicked = start (void (summarizeFile s))
                                   (mkInstance s [] [] true)).
    { unfold clicked, step, enabled. cbn [rendered store].
      by rewrite Hl, Hf. }
    destruct (drive_uninterrupted tr (void (summarizeFile s)) s
                (fst clicked) 0 between) as [H1 H2].
    + by rewrite Hclicked.
    + rewrite Hclicked. intros _. split; [done|].
      apply busy_void, busy_summarizeFile.
    + done.
    + rewrite run_void.
      pose proof (summarizeFile_suspensions tr s f Hf) as Hs.
      unfold invoke in Hs. lia.
    + assert (Hev : ev = events (invoke tr summarizeFile s)).
      { unfold ev, driven, invoke. rewrite run_void in H2. rewrite <- H2.
        by rewrite Hclicked. }
      split; [done|]. split; [done|]. clearbody ev.
      intros d Hd docId. subst docId. rewrite Hev.
      pose proof (summarizeFile_shape tr s f Hf) as H. cbv zeta in H.
      rewrite Hd in H. destruct H as (k & Hk & Hobs & Hnr & Hend).
      exists k. split; [done|]. split; [done|]. split; [done|].
      destruct (tr k (GetDocument (get d "document_id"))) as [data| |r];
        [|left; by destruct Hend..].
      simpl. destruct (strictEqStr _ _); [by right|]. left. by destruct Hend.
Qed.

End InFlight.

(** Witness of C6: the page during polling; and a click on "Upload &
    Summarize" with [report] selected, the user clicking "Summarize Text",
    navigating away and typing before every resumption, against a document
    that gets ready on the third query. *)
Lemma one_submission_in_flight_and_no_cancel_witness :
  (let w := fst (steps mounted duringPolling) in
   length (inflight w) <= 1 /\
   (inflight w <> [] ->
    loading (store w) = true /\ forall i, step w (User i) = (w, []))) /\
  (let tr := Scenario.readyOnThird in
   let s := Scenario.withReport in
   let between :=
     replicate 61 [User ClickSummarizeText; NavigateAway;
                   User (TypeText (js "Hello"))] in
   let clicked := step (mkInstance s [] [] true) (User ClickSummarizeFile) in
   let driven := drive tr between 0 (fst clicked) in
   let ev := snd clicked ++ snd driven in
   inflight (fst driven) = [] /\
   ev = events (invoke tr summarizeFile s) /\
   forall d, tr 0 (uploadRequest s Scenario.report) = Fulfilled d ->
     let docId := get d "document_id" in
     exists k,
       1 <= k <= maxAttempts /\
       observable ev =
         EvRequest (uploadRequest s Scenario.report) :: pollEvents docId k /\
       (forall i, 1 <= i < k ->
                  notReady (tr i (GetDocument docId)) = true) /\
       (k = maxAttempts \/ notReady (tr k (GetDocument docId)) = false)).
Proof.
  pose (T := one_submission_in_flight_and_no_cancel duringPolling
               Scenario.readyOnThird Scenario.withReport Scenario.report
               (replicate 61 [User ClickSummarizeText; NavigateAway;
                              User (TypeText (js "Hello"))])).
  exact (conj (proj1 T)
           (proj2 T ltac:(reflexivity) ltac:(reflexivity)
              ltac:(apply Forall_replicate; repeat constructor)
              ltac:(rewrite length_replicate; unfold maxAttempts; lia))).
Defined.

(** C6 fails as stated: the user navigates away while the polling loop
    waits for its second turn.  The component is no longer rendered, and
    the loop is still in flight: its timer brings the next status query,
    and against a document that never gets ready it makes the 29 queries
    that were left before it returns.  (What it writes after the navigation
    is lost: the store is the one the user left.) *)
Lemma navigating_away_does_not_stop_polling :
  let w := fst (steps mounted duringPolling) in
  let w' := fst (step w NavigateAway) in
  let rest := drive (fun _ _ => Scenario.processing) (replicate 60 []) 0 w' in
  polling w = true /\
  rendered w' = false /\
  polling w' = true /\
  snd (step w' (TimerFires 0)) = [EvRequest (GetDocument (JStr (js "d2")))] /\
  statusQueries (snd rest) = 29 /\
  inflight (fst rest) = [] /\
  store (fst rest) = store w.
Proof. by vm_compute. Qed.

(** ** [countUniqueWords]: further properties *)

Section CountUniqueWordsMore.

Variable toLowerCase : list N -> list N.

Lemma forallb_isWhiteSpace t :
  forallb isWhiteSpace t = true <-> Forall (fun c => isWhiteSpace c = true) t.
Proof.
  induction t as [|c r IH]; simpl.
  - split; [constructor|done].
  - rewrite andb_true_iff, IH. split.
    + intros [? ?]. by constructor.
    + by inversion 1.
Qed.

Lemma not_all_blank t :
  forallb isWhiteSpace t = false -> Exists (fun c => isWhiteSpace c = false) t.
Proof.
  induction t as [|c r IH]; simpl; [done|].
  destruct (isWhiteSpace c) eqn:Hc; simpl.
  - intros H. by apply Exists_cons_tl, IH.
  - intros _. by apply Exists_cons_hd.
Qed.

(** X1. What [countUniqueWords] returns on every input: 0 for an absent
    or empty text, 1 for a non-empty text of white space only, and otherwise
    the number of distinct lowercased words of the text. *)
Theorem countUniqueWords_characterised text :
  countUniqueWords toLowerCase text =
  match text with
  | None | Some [] => 0
  | Some t =>
      if forallb isWhiteSpace t then 1
      else size (list_to_set (List.map toLowerCase (tokens t)) : gset (list N))
  end.
Proof.
  destruct text as [[|c r]|]; [done| |done].
  destruct (forallb isWhiteSpace (c :: r)) eqn:Hb.
  - apply forallb_isWhiteSpace in Hb.
    by apply (countUniqueWords_blank toLowerCase (c :: r)).
  - apply not_all_blank in Hb.
    by rewrite (countUniqueWords_agrees toLowerCase (c :: r) Hb).
Qed.

Lemma tokens_app_blank_l pre t :
  Forall (fun c => isWhiteSpace c = true) pre -> tokens (pre ++ t) = tokens t.
Proof.
  unfold tokens. induction 1 as [|c pre Hc _ IH]; simpl; [done|].
  by rewrite Hc.
Qed.

Lemma tokens_app_blank_r t post :
  Forall (fun c => isWhiteSpace c = true) post -> tokens (t ++ post) = tokens t.
Proof.
  unfold tokens. induction post as [|w l IH] using rev_ind; intros H.
  - by rewrite app_nil_r.
  - apply Forall_app in H as [Hl Hw]. inversion Hw; subst.
    rewrite app_assoc, tokens_go_snoc_ws by done. by apply IH.
Qed.

(** X2. White space around a text does not change the count: padding a
    text that holds at least one word with white space on either side gives
    the same result. *)
Theorem countUniqueWords_ignores_padding pre t post :
  Forall (fun c => isWhiteSpace c = true) pre ->
  Forall (fun c => isWhiteSpace c = true) post ->
  Exists (fun c => isWhiteSpace c = false) t ->
  countUniqueWords toLowerCase (Some (pre ++ t ++ post)) =
  countUniqueWords toLowerCase (Some t).
Proof.
  intros Hpre Hpost Ht.
  rewrite !countUniqueWords_agrees; [|done|].
  - unfold distinctTokenCount.
    by rewrite tokens_app_blank_l, tokens_app_blank_r.
  - apply Exists_app. right. apply Exists_app. by left.
Qed.

Lemma tokens_go_nonempty s : forall cur,
  cur <> [] \/ Exists (fun c => isWhiteSpace c = false) s ->
  tokens_go cur s <> [].
Proof.
  induction s as [|c r IH]; intros cur H; simpl.
  - destruct H as [H|H]; [by destruct cur|by inversion H].
  - destruct (isWhiteSpace c) eqn:Hc.
    + destruct cur; [|done]. apply IH. right.
      destruct H as [H|H]; [done|]. inversion H; subst; [congruence|done].
    + apply IH. by left.
Qed.

Lemma size_list_to_set_le (l : list (list N)) :
  size (list_to_set l : gset (list N)) <= length l.
Proof.
  induction l as [|x l IH]; cbn [length].
  - by rewrite list_to_set_nil, size_empty.
  - rewrite list_to_set_cons.
    destruct (decide (x ∈ (list_to_set l : gset (list N)))) as [Hin|Hnin].
    + rewrite (subseteq_union_1_L {[x]} (list_to_set l)); [lia|set_solver].
    + rewrite size_union, size_singleton; [lia|set_solver].
Qed.

(** X3. A text that holds a word counts at least 1 and at most the number
    of its words. *)
Theorem countUniqueWords_bounds t :
  Exists (fun c => isWhiteSpace c = false) t ->
  1 <= countUniqueWords toLowerCase (Some t) <= length (tokens t).
Proof.
  intros Ht. rewrite countUniqueWords_agrees by done.
  unfold distinctTokenCount. split.
  - pose proof (tokens_go_nonempty t [] (or_intror Ht)) as Hne.
    fold (tokens t) in Hne.
    destruct (tokens t) as [|w ws]; [done|]. cbn [List.map].
    rewrite list_to_set_cons.
    pose proof (subseteq_size ({[toLowerCase w]} : gset (list N))
                  ({[toLowerCase w]} ∪ list_to_set (List.map toLowerCase ws))) as Hs.
    rewrite size_singleton in Hs. apply Hs. set_solver.
  - etrans; [apply size_list_to_set_le|]. by rewrite length_map.
Qed.

End CountUniqueWordsMore.

(** Witness of X2: one blank before and two after ["Hello  hello"]. *)
Lemma countUniqueWords_ignores_padding_witness :
  countUniqueWords asciiToLowerCase (Some (js " " ++ js "Hello  hello" ++ js "  ")) =
  countUniqueWords asciiToLowerCase (Some (js "Hello  hello")).
Proof.
  exact (countUniqueWords_ignores_padding asciiToLowerCase
           (js " ") (js "Hello  hello") (js "  ")
           ltac:(repeat constructor) ltac:(repeat constructor)
           ltac:(by apply Exists_cons_hd)).
Defined.

(** Witness of X3: ["The the  cat"] has three words, two of them distinct. *)
Lemma countUniqueWords_bounds_witness :
  1 <= countUniqueWords asciiToLowerCase (Some (js "The the  cat"))
    <= length (tokens (js "The the  cat")).
Proof.
  exact (countUniqueWords_bounds asciiToLowerCase (js "The the  cat")
           ltac:(by apply Exists_cons_hd)).
Defined.

(** *** Lowercasing on the Basic Latin block *)

Lemma isWhiteSpace_printable x :
  (33 <= x <= 159)%N -> isWhiteSpace x = false.
Proof.
  intros Hx. unfold isWhiteSpace.
  repeat match goal with
         | |- context [(x =? ?b)%N] => rewrite (proj2 (N.eqb_neq x b)) by lia
         end.
  rewrite (proj2 (N.leb_gt x 13)) by lia.
  rewrite (proj2 (N.leb_gt 8192 x)) by lia.
  by rewrite andb_false_r.
Qed.

(** Mapping a text unit by unit maps its words, when the map keeps white
    space and the rest apart. *)
Lemma tokens_go_map (f : N -> N) :
  (forall c, isWhiteSpace (f c) = isWhiteSpace c) ->
  forall s cur,
    tokens_go (List.map f cur) (List.map f s) =
    List.map (List.map f) (tokens_go cur s).
Proof.
  intros Hf. induction s as [|c r IH]; intros cur; simpl.
  - destruct cur as [|x cur]; [done|]. simpl. by rewrite !map_app, map_rev.
  - rewrite Hf. destruct (isWhiteSpace c).
    + destruct cur as [|x cur]; simpl.
      * apply (IH []).
      * rewrite !map_app, map_rev. simpl. f_equal. apply (IH []).
    + apply (IH (c :: cur)).
Qed.

Lemma lowerUnit_isWhiteSpace c :
  isWhiteSpace (if (65 <=? c)%N && (c <=? 90)%N then (c + 32)%N else c) =
  isWhiteSpace c.
Proof.
  destruct ((65 <=? c)%N && (c <=? 90)%N) eqn:Hc; [|done].
  apply andb_true_iff in Hc as [H1 H2].
  apply N.leb_le in H1, H2.
  by rewrite !isWhiteSpace_printable by lia.
Qed.

Lemma asciiToLowerCase_idempotent t :
  asciiToLowerCase (asciiToLowerCase t) = asciiToLowerCase t.
Proof.
  unfold asciiToLowerCase. rewrite List.map_map. apply List.map_ext.
  intros c. destruct ((65 <=? c)%N && (c <=? 90)%N) eqn:Hc; [|by rewrite Hc].
  apply andb_true_iff in Hc as [H1 H2]. apply N.leb_le in H1, H2.
  by rewrite (proj2 (N.leb_gt (c + 32) 90)), andb_false_r by lia.
Qed.

Lemma tokens_asciiToLowerCase t :
  tokens (asciiToLowerCase t) = List.map asciiToLowerCase (tokens t).
Proof.
  unfold tokens, asciiToLowerCase.
  apply (tokens_go_map _ lowerUnit_isWhiteSpace t []).
Qed.

Lemma asciiToLowerCase_blank t :
  forallb isWhiteSpace (asciiToLowerCase t) = forallb isWhiteSpace t.
Proof.
  unfold asciiToLowerCase. induction t as [|c t IH]; [done|].
  simpl. by rewrite lowerUnit_isWhiteSpace, IH.
Qed.

Lemma tokens_go_Forall (P : N -> Prop) s : forall cur,
  Forall P cur -> Forall P s -> Forall (Forall P) (tokens_go cur s).
Proof.
  induction s as [|c r IH]; intros cur Hcur Hs; simpl.
  - destruct cur; [constructor|].
    constructor; [|constructor]. by apply List.Forall_rev.
  - inversion Hs; subst. destruct (isWhiteSpace c).
    + destruct cur.
      * by apply IH.
      * constructor; [by apply List.Forall_rev|by apply IH].
    + apply IH; [by constructor|done].
Qed.

Lemma asciiToLowerCase_basicLatin t :
  Forall (fun c => (c < 128)%N) t ->
  Forall (fun c => (c < 128)%N) (asciiToLowerCase t).
Proof.
  unfold asciiToLowerCase. induction 1 as [|c t Hc _ IH]; simpl; [constructor|].
  constructor; [|done].
  destruct ((65 <=? c)%N && (c <=? 90)%N) eqn:Hcase; [|done].
  apply andb_true_iff in Hcase as [_ H2]. apply N.leb_le in H2. lia.
Qed.

Section CaseInsensitive.

(** The host's [toLowerCase], of which only its behaviour on Basic Latin
    strings is assumed. *)
Variable toLowerCase : list N -> list N.
Hypothesis toLowerCase_basicLatin : forall t,
  Forall (fun c => (c < 128)%N) t -> toLowerCase t = asciiToLowerCase t.

(** X4. On a text of Basic Latin code units counting ignores letter case:
    the text and its lowercased form give the same result, so that ["The"]
    and ["the"] are one word.  (Texts with other letters are not covered:
    there [toLowerCase] is not determined by the assumption.) *)
Theorem countUniqueWords_case_insensitive text :
  match text with
  | Some t => Forall (fun c => (c < 128)%N) t
  | None => True
  end ->
  countUniqueWords toLowerCase (toLowerCase <$> text) =
  countUniqueWords toLowerCase text.
Proof.
  destruct text as [t|]; [|done]. intros Ht.
  cbn [fmap option_fmap option_map].
  rewrite (toLowerCase_basicLatin t Ht).
  destruct (forallb isWhiteSpace t) eqn:Hb.
  - pose proof Hb as Hb'. rewrite <- asciiToLowerCase_blank in Hb'.
    apply forallb_isWhiteSpace in Hb, Hb'.
    destruct (decide (t = [])) as [->|Hne]; [done|].
    rewrite (proj1 (countUniqueWords_blank toLowerCase t Hne Hb)).
    apply countUniqueWords_blank; [|done].
    by destruct t.
  - pose proof Hb as Hb'. rewrite <- asciiToLowerCase_blank in Hb'.
    apply not_all_blank in Hb, Hb'.
    rewrite !countUniqueWords_agrees by done.
    unfold distinctTokenCount.
    rewrite tokens_asciiToLowerCase, List.map_map.
    f_equal. f_equal.
    pose proof (tokens_go_Forall _ t [] (Forall_nil_2 _) Ht) as Hwords.
    fold (tokens t) in Hwords.
    induction Hwords as [|w ws Hw _ IH]; [done|].
    simpl. rewrite IH. f_equal.
    rewrite (toLowerCase_basicLatin _ (asciiToLowerCase_basicLatin w Hw)).
    rewrite (toLowerCase_basicLatin w Hw).
    apply asciiToLowerCase_idempotent.
Qed.

End CaseInsensitive.

(** Witness of X4: ["The the THE"], lowered as the Basic Latin block is. *)
Lemma countUniqueWords_case_insensitive_witness :
  countUniqueWords asciiToLowerCase
    (asciiToLowerCase <$> Some (js "The the THE")) =
  countUniqueWords asciiToLowerCase (Some (js "The the THE")).
Proof.
  exact (countUniqueWords_case_insensitive asciiToLowerCase
           ltac:(intros t _; reflexivity) (Some (js "The the THE"))
           ltac:(repeat constructor)).
Defined.

(** ** The upload control on several files *)

Section FileUploadMore.

Variable toLowerCase : list N -> list N.

Lemma rejection_accepted p f :
  rejection toLowerCase p f = None <-> accepted toLowerCase p f = true.
Proof.
  unfold rejection, accepted.
  destruct (tooLarge p f), (typeAccepted toLowerCase p f); by simpl.
Qed.

Lemma validateFiles_step_rejection p valid invalid f :
  validateFiles_step toLowerCase p (valid, invalid) f =
  match rejection toLowerCase p f with
  | Some why => (valid, invalid ++ [why])
  | None => (valid ++ [f], invalid)
  end.
Proof.
  unfold validateFiles_step, rejection, tooLarge, typeAccepted.
  destruct (file_size f >? _)%Z; [done|].
  by destruct (existsb _ _).
Qed.

(** The [forEach] of [validateFiles] sorts the files into the two arrays,
    keeping their order. *)
Lemma validateFiles_fold p files : forall valid invalid,
  fold_left (validateFiles_step toLowerCase p) files (valid, invalid) =
  (valid ++ List.filter (accepted toLowerCase p) files,
   invalid ++ omap (rejection toLowerCase p) files).
Proof.
  induction files as [|f files IH]; intros valid invalid.
  - simpl. by rewrite !app_nil_r.
  - cbn [fold_left]. rewrite validateFiles_step_rejection.
    destruct (rejection toLowerCase p f) as [why|] eqn:Hr.
    + assert (Ha : accepted toLowerCase p f = false).
      { destruct (accepted toLowerCase p f) eqn:Ha; [|done].
        apply rejection_accepted in Ha. congruence. }
      rewrite IH. simpl. rewrite Ha, Hr. simpl. by rewrite <- app_assoc.
    + rewrite IH. simpl. rewrite Hr. apply rejection_accepted in Hr.
      rewrite Hr. by rewrite <- app_assoc.
Qed.

Lemma filter_accepted_all p files :
  omap (rejection toLowerCase p) files = [] ->
  List.filter (accepted toLowerCase p) files = files.
Proof.
  induction files as [|f files IH]; simpl; [done|].
  destruct (rejection toLowerCase p f) as [why|] eqn:Hr; [done|].
  apply rejection_accepted in Hr. rewrite Hr. intros H. by rewrite IH.
Qed.

(** X6. [validateFiles] is all or nothing: it returns the files, all of
    them and in their order, when none is turned down; otherwise it returns
    [false] and sets the error to "Cannot upload: " followed by one entry
    per file turned down, in the order of the files, joined by ", ". *)
Theorem validateFiles_all_or_nothing p files :
  validateFiles toLowerCase p files =
  match omap (rejection toLowerCase p) files with
  | [] => (js "", Some files)
  | invalidFiles =>
      (js "Cannot upload: " ++ join (js ", ") invalidFiles, None)
  end.
Proof.
  unfold validateFiles. rewrite validateFiles_fold. simpl.
  destruct (omap (rejection toLowerCase p) files) as [|why rest] eqn:Ho.
  - by rewrite filter_accepted_all.
  - done.
Qed.

(** X7. With [multiple] off, [handleChange] looks at the first file only.
    If the control accepts it, [onFileSelect] is called with that file,
    which becomes the whole selection, and the error is cleared; if not, no
    call is made, the selection stays, and the error names the file. *)
Theorem handleChange_single_file l f rest st :
  let p := toolProps l in
  handleChange toLowerCase p (f :: rest) st =
  match rejection toLowerCase p f with
  | None => (mkFU (js "") [f], Some (SelOne (Some f)))
  | Some why =>
      (mkFU (js "Cannot upload: " ++ why) (fu_selectedFiles st), None)
  end.
Proof.
  intros p. unfold handleChange.
  change (if multiple p then f :: rest else [f]) with [f].
  rewrite validateFiles_single. unfold rejection.
  destruct (tooLarge p f); [done|].
  by destruct (typeAccepted toLowerCase p f).
Qed.

End FileUploadMore.

(** Witness of X8: the 15 MB [big.exe], and [report], chosen on the fresh
    page. *)
Lemma rejected_file_is_never_uploaded_witness :
  (let chosen := chooseFiles asciiToLowerCase [Scenario.bigExe]
                   (mkFU (js "") []) mounted in
   snd chosen = mounted /\
   fu_selectedFiles (fst chosen) = [] /\
   fu_error (fst chosen) =
     js "Cannot upload: "
       ++ default [] (rejection asciiToLowerCase (toolProps false)
                        Scenario.bigExe) /\
   (file (store mounted) = None ->
    enabled ClickSummarizeFile (store (snd chosen)) = false /\
    snd (step (snd chosen) (User ClickSummarizeFile)) = [] /\
    forall tr, events (invoke tr summarizeFile (store (snd chosen))) = [])) /\
  (let chosen := chooseFiles asciiToLowerCase [Scenario.report]
                   (mkFU (js "") []) mounted in
   file (store (snd chosen)) = Some Scenario.report /\
   fu_selectedFiles (fst chosen) = [Scenario.report] /\
   snd (step (snd chosen) (User ClickSummarizeFile)) =
     [EvRequest (uploadRequest (store (snd chosen)) Scenario.report)]).
Proof.
  exact (conj
           (rejected_file_is_never_uploaded asciiToLowerCase Scenario.bigExe
              (mkFU (js "") []) mounted
              ltac:(reflexivity) ltac:(reflexivity))
           (rejected_file_is_never_uploaded asciiToLowerCase Scenario.report
              (mkFU (js "") []) mounted
              ltac:(reflexivity) ltac:(reflexivity))).
Defined.

(** A pdf, an oversized file and a spreadsheet dropped together on a control
    that takes several files: nothing is selected, both offenders are named. *)
Example validateFiles_mixed :
  validateFiles asciiToLowerCase
    (mkProps (js ".txt,.pdf,.docx,.doc") 10 true false)
    [Scenario.report; Scenario.bigExe; mkFile (js "sheet.xlsx") 10 (js "")] =
  (js "Cannot upload: big.exe (exceeds 10MB size limit), sheet.xlsx (invalid file type)",
   None).
Proof. by vm_compute. Qed.

(** ** The handlers on every transport *)

Section HandlersMore.

Context (tr : Transport).

(** X9. [summarizeText] on a text that is not blank sends one request.  If
    it is fulfilled with a body, the [summary] and the [document_id] read
    from the body are shown, the spinner is off and no error is left; if it
    is rejected, or fulfilled without a body (reading [result.summary] then
    throws), the error message is shown, the spinner is off, and summary and
    document id are what they were. *)
Theorem summarizeText_outcome s :
  truthy (JStr (trim (text s))) = true ->
  let request :=
    PostSummarize (text s)
      (Js.or (get (requestOptions s) "maxLength") (int 150))
      (Js.or (get (requestOptions s) "minLength") (int 40)) in
  let o := invoke tr Tool.summarizeText s in
  requests (events o) = [EvRequest request] /\
  match tr 0 request with
  | Fulfilled data =>
      Succeeded (final o) (get data "document_id") (get data "summary")
  | FulfilledNull | Rejected _ =>
      Failed (final o)
        (js "An error occurred during summarization. Please try again.") /\
      summary (final o) = summary s /\ documentId (final o) = documentId s
  end.
Proof.
  intros Ht request o. subst o request.
  unfold invoke, Tool.summarizeText. rewrite Ht. cbn.
  destruct (tr 0 _) as [data| |reason]; cbn;
    unfold Succeeded, Failed; by destruct s.
Qed.

(** X15. [submitFeedback] sends its request exactly when a rating is set:
    with rating 0 nothing is sent, with any other rating one request
    carrying the document id (twice), the rating, the comment and the
    summary. *)
Theorem feedback_sent_iff_rated s :
  requests (events (invoke tr Tool.submitFeedback s)) =
  if (rating s =? 0)%Z then []
  else [EvRequest (PostFeedback (documentId s) (documentId s) (rating s)
                     (feedback s) (summary s))].
Proof.
  unfold invoke, Tool.submitFeedback.
  destruct (rating s =? 0)%Z; [done|]. cbn. by destruct (tr 0 _).
Qed.

(** The events of a run do not depend on the store it starts from. *)
Lemma run_events_store {A} (t : Task A) : forall n s1 s2,
  events (run tr t n s1) = events (run tr t n s2) /\
  result (run tr t n s1) = result (run tr t n s2).
Proof.
  induction t as [a|u k IH|m k IH|ms u k IH|ms k IH|r k IH]; intros n s1 s2;
    simpl.
  - done.
  - apply IH.
  - destruct (IH n s1 s2) as [-> ->]. done.
  - destruct (IH n s1 s2) as [-> ->]. done.
  - destruct (IH n s1 s2) as [-> ->]. done.
  - destruct (IH (tr n r) (S n) s1 s2) as [-> ->]. done.
Qed.

Lemma js_model_not_length :
  js "model" <> js "maxLength" /\ js "model" <> js "minLength".
Proof. by split. Qed.

(** Without length keys among the advanced options, the lengths sent are
    those of the summary options. *)
Lemma requestOptions_lengths s :
  advancedOptions s !! js "maxLength" = None ->
  advancedOptions s !! js "minLength" = None ->
  get (requestOptions s) "maxLength" = get (summaryOptions s) "maxLength" /\
  get (requestOptions s) "minLength" = get (summaryOptions s) "minLength".
Proof.
  intros Hmax Hmin. unfold requestOptions, spread, get.
  destruct js_model_not_length as [H1 H2].
  split.
  - by rewrite lookup_union_r, lookup_insert_ne.
  - by rewrite lookup_union_r, lookup_insert_ne.
Qed.

(** X10. The selected model and the advanced options never reach the
    request: as long as the advanced options hold no [maxLength] or
    [minLength] entry, replacing the model and the advanced options leaves
    every event of [summarizeText] and of [summarizeFile] as it was. *)
Theorem model_and_advanced_options_are_not_sent s model advanced :
  advancedOptions s !! js "maxLength" = None ->
  advancedOptions s !! js "minLength" = None ->
  advanced !! js "maxLength" = None ->
  advanced !! js "minLength" = None ->
  let s' := apply (SetAdvancedOptions advanced)
              (apply (SetSelectedModel model) s) in
  events (invoke tr Tool.summarizeText s') =
    events (invoke tr Tool.summarizeText s) /\
  events (invoke tr summarizeFile s') = events (invoke tr summarizeFile s).
Proof.
  intros H1 H2 H3 H4 s'.
  assert (Hs' : text s' = text s /\ file s' = file s /\
                summaryOptions s' = summaryOptions s /\
                advancedOptions s' = advanced) by (by destruct s).
  destruct Hs' as (Ht & Hf & Hso & Hao).
  destruct (requestOptions_lengths s H1 H2) as [Ea Eb].
  destruct (requestOptions_lengths s') as [Ea' Eb'];
    [by rewrite Hao..|].
  rewrite Hso in Ea', Eb'.
  assert (Etext : Tool.summarizeText s' = Tool.summarizeText s).
  { unfold Tool.summarizeText, Service.summarizeText.
    by rewrite Ht, Ea', Eb', Ea, Eb. }
  assert (Efile : summarizeFile s' = summarizeFile s).
  { unfold summarizeFile, Service.uploadDocument. rewrite Hf.
    destruct (file s); [|done]. by rewrite Ea', Eb', Ea, Eb. }
  unfold invoke. rewrite Etext, Efile.
  split; apply run_events_store.
Qed.

(** X11. A length that does not parse to a non-zero number is replaced at
    send time: after [handleOptionsChange] on [maxLength], the next text
    request carries [parseInt(value) || 150], and the same minimum as
    before. *)
Theorem changed_maxLength_is_sent_or_defaulted s value :
  truthy (JStr (trim (text s))) = true ->
  advancedOptions s !! js "maxLength" = None ->
  advancedOptions s !! js "minLength" = None ->
  let s' := apply (handleOptionsChange (js "maxLength") value s) s in
  requests (events (invoke tr Tool.summarizeText s')) =
  [EvRequest (PostSummarize (text s)
                (Js.or (parseInt value) (int 150))
                (Js.or (get (summaryOptions s) "minLength") (int 40)))].
Proof.
  intros Ht H1 H2 s'.
  assert (Hs' : text s' = text s /\ advancedOptions s' = advancedOptions s /\
                summaryOptions s' =
                <[js "maxLength" := parseInt value]> (summaryOptions s))
    by (by destruct s).
  destruct Hs' as (Htext & Hao & Hso).
  rewrite summarizeText_request by (by rewrite Htext).
  destruct (requestOptions_lengths s') as [Ea Eb]; [by rewrite Hao..|].
  rewrite Ea, Eb, Htext, Hso. unfold get.
  by rewrite lookup_insert_eq, lookup_insert_ne.
Qed.

End HandlersMore.

(** ** [summarizeFile] on every transport *)

Section SummarizeFileMore.

Context (tr : Transport).

(** X12. Every run of [summarizeFile] on a selected file, whatever the
    transport answers.  If the upload is fulfilled with a body, the handler
    makes [k] status queries, [1 <= k <= 30], every one for the document id
    of that body and every one right after a 2000 ms delay; no reply before
    the [k]-th is ready, and the [k]-th decides the end: if it is completed,
    the handler has succeeded and shows the summary of that very reply;
    otherwise it was the 30th, and the handler ends with the "taking longer
    than expected" message and the document id kept.  If the upload is
    rejected, or fulfilled without a body, the upload is the only request and
    the handler ends with the upload error message and the document id as it
    was. *)
Theorem summarizeFile_trace_shape s f :
  file s = Some f ->
  let o := invoke tr summarizeFile s in
  match tr 0 (uploadRequest s f) with
  | Fulfilled d =>
      let docId := get d "document_id" in
      exists k,
        1 <= k <= 30 /\
        observable (events o) =
          EvRequest (uploadRequest s f) :: pollEvents docId k /\
        statusQueries (events o) = k /\
        (forall i, 1 <= i < k ->
                   notReady (tr i (GetDocument docId)) = true) /\
        match tr k (GetDocument docId) with
        | Fulfilled data =>
            if strictEqStr (get data "status") (js "completed")
            then Succeeded (final o) docId (get data "summary")
            else k = 30 /\
                 Failed (final o)
                   (js "Summary generation is taking longer than expected. Please check back later.") /\
                 documentId (final o) = docId
        | FulfilledNull | Rejected _ =>
            k = 30 /\
            Failed (final o)
              (js "Summary generation is taking longer than expected. Please check back later.") /\
            documentId (final o) = docId
        end
  | FulfilledNull | Rejected _ =>
      observable (events o) = [EvRequest (uploadRequest s f)] /\
      statusQueries (events o) = 0 /\
      Failed (final o)
        (js "Error uploading or processing document. Please try again.") /\
      documentId (final o) = documentId s
  end.
Proof.
  intros Hf o.
  pose proof (summarizeFile_shape tr s f Hf) as H. cbv zeta in H. fold o in H.
  destruct (tr 0 (uploadRequest s f)) as [d| |reason].
  - intros docId. destruct H as (k & Hk & Hobs & Hnr & Hend).
    exists k. split; [done|]. split; [done|]. split; [|done].
    by rewrite <- statusQueries_observable, Hobs, statusQueries_upload,
      statusQueries_pollEvents.
  - destruct H as (Hobs & Hfail). split; [done|]. split; [|done].
    by rewrite <- statusQueries_observable, Hobs.
  - destruct H as (Hobs & Hfail). split; [done|]. split; [|done].
    by rewrite <- statusQueries_observable, Hobs.
Qed.

(** X13. The loop stops at the first completed reply: if the first [k]
    status replies are not ready and the next one is completed, with
    [k < 30], exactly [k + 1] status queries are made, whatever the
    transport would answer later, and the summary of that reply is shown. *)
Theorem polling_stops_at_first_completed s f d k data :
  file s = Some f ->
  tr 0 (uploadRequest s f) = Fulfilled d ->
  let docId := get d "document_id" in
  k < maxAttempts ->
  (forall i, i < k -> notReady (tr (1 + i) (GetDocument docId)) = true) ->
  tr (1 + k) (GetDocument docId) = Fulfilled data ->
  strictEqStr (get data "status") (js "completed") = true ->
  let o := invoke tr summarizeFile s in
  statusQueries (events o) = k + 1 /\
  requestCount (events o) = k + 2 /\
  Succeeded (final o) docId (get data "summary").
Proof.
  intros Hf Hu docId Hk Hnr Hdone Hc o. subst docId.
  destruct (summarizeFile_completes tr s f Hf d k data Hu Hk Hnr Hdone Hc)
    as (_ & Hobs & Hs).
  fold o in Hobs.
  split.
  { by rewrite <- statusQueries_observable, Hobs, statusQueries_upload,
      statusQueries_pollEvents. }
  split; [|done].
  assert (Hreq : forall ev, requestCount (observable ev) = requestCount ev).
  { intros ev. unfold requestCount, requests, observable.
    induction ev as [|[| | |] ev IH]; simpl; congruence. }
  rewrite <- Hreq, Hobs.
  assert (Hn : forall j, requestCount (pollEvents (get d "document_id") j) = j).
  { induction j as [|j IH]; [done|].
    rewrite pollEvents_S, requestCount_app, IH. reflexivity. }
  change (requestCount (EvRequest ?r :: ?l)) with (S (requestCount l)).
  rewrite Hn. lia.
Qed.

Lemma summarizeFile_closes s f d :
  file s = Some f ->
  tr 0 (uploadRequest s f) = Fulfilled d ->
  loading (final (invoke tr summarizeFile s)) = false.
Proof.
  intros Hf Hu. rewrite (summarizeFile_uploaded tr s f d Hf Hu). cbn.
  destruct (pollLoop_total tr (get d "document_id") maxAttempts false 0 1
              (uploaded s (get d "document_id"))) as [b Hb]; [lia|].
  rewrite Hb. cbn. by rewrite loading_apply.
Qed.

(** X14. A handler that starts with the spinner off ends with the spinner
    off, on every state and against every transport: whether it was turned
    down by its guard, answered, rejected or timed out. *)
Theorem handlers_turn_the_spinner_off s :
  loading s = false ->
  loading (final (invoke tr Tool.summarizeText s)) = false /\
  loading (final (invoke tr summarizeFile s)) = false /\
  loading (final (invoke tr Tool.submitFeedback s)) = false.
Proof.
  intros Hl. split; [|split].
  - unfold invoke, Tool.summarizeText.
    destruct (negb _); cbn; [by destruct s|].
    destruct (tr 0 _); cbn; by destruct s.
  - destruct (file s) as [f|] eqn:Hf.
    2:{ destruct (summarizeFile_without_file tr s Hf) as [_ ->]. by destruct s. }
    destruct (tr 0 (uploadRequest s f)) as [d| |reason] eqn:Hu.
    + by apply (summarizeFile_closes s f d).
    + unfold invoke, summarizeFile. rewrite Hf. cbn.
      unfold uploadRequest in Hu. rewrite Hu. cbn. by destruct s.
    + unfold invoke, summarizeFile. rewrite Hf. cbn.
      unfold uploadRequest in Hu. rewrite Hu. cbn. by destruct s.
  - unfold invoke, Tool.submitFeedback.
    destruct (rating s =? 0)%Z; cbn; [by destruct s|].
    destruct (tr 0 _); cbn; by destruct s.
Qed.

End SummarizeFileMore.

(** ** The controls and the handlers together *)

(** X16. [handleFileUpload] stores the file and touches nothing else,
    unless a document id is shown: then the id and the summary are emptied,
    which takes the feedback controls away.  A summary without a document
    id stays. *)
Theorem selecting_a_file_discards_the_result selectedFile s :
  let s' := applyAll (handleFileUpload selectedFile s) s in
  file s' = selectedFile /\
  text s' = text s /\ summaryOptions s' = summaryOptions s /\
  loading s' = loading s /\ error s' = error s /\
  rating s' = rating s /\ feedback s' = feedback s /\
  if truthy (documentId s)
  then documentId s' = JStr (js "") /\ summary s' = JStr (js "") /\
       enabled ClickSubmitFeedback s' = false /\
       (forall star, enabled (Rate star) s' = false)
  else documentId s' = documentId s /\ summary s' = summary s.
Proof.
  intros s'. subst s'. unfold handleFileUpload, applyAll.
  destruct (truthy (documentId s)) eqn:Hd; destruct s; cbn in *; by rewrite ?Hd.
Qed.

(** X17. From the rendered controls the guards of [summarizeFile] and
    [submitFeedback] never fire: when the upload button is enabled a file is
    selected and the click sends the upload request; when the feedback
    button is enabled the click sends the feedback request.  The blank-text
    guard of [summarizeText] does fire: whenever the spinner is off its
    button is enabled, also on a blank text, and the click then sends
    nothing, leaves nothing in flight and shows the guard's message. *)
Theorem enabled_buttons_and_guards w :
  rendered w = true ->
  (enabled ClickSummarizeFile (store w) = true ->
   exists f, file (store w) = Some f /\
     snd (step w (User ClickSummarizeFile)) =
     [EvRequest (uploadRequest (store w) f)]) /\
  (enabled ClickSubmitFeedback (store w) = true ->
   snd (step w (User ClickSubmitFeedback)) =
   [EvRequest (PostFeedback (documentId (store w)) (documentId (store w))
                 (rating (store w)) (feedback (store w)) (summary (store w)))]) /\
  (loading (store w) = false ->
   Forall (fun c => isWhiteSpace c = true) (text (store w)) ->
   enabled ClickSummarizeText (store w) = true /\
   snd (step w (User ClickSummarizeText)) = [] /\
   inflight (fst (step w (User ClickSummarizeText))) = inflight w /\
   store (fst (step w (User ClickSummarizeText))) =
     apply (SetError (js "Please enter some text to summarize")) (store w)).
Proof.
  intros Hrendered. split; [|split].
  - intros Hen. unfold step. rewrite Hrendered, Hen. cbn [andb].
    unfold enabled in Hen.
    destruct (file (store w)) as [f|] eqn:Hf.
    2:{ destruct (loading (store w)); by cbn in Hen. }
    exists f. split; [done|].
    unfold dispatch, start, void, summarizeFile. rewrite Hf. by cbn.
  - intros Hen. unfold step. rewrite Hrendered, Hen. cbn [andb].
    unfold enabled in Hen.
    destruct (rating (store w) =? 0)%Z eqn:Hr.
    { destruct (truthy (summary (store w))), (loading (store w));
        by cbn in Hen. }
    unfold dispatch, start, Tool.submitFeedback. rewrite Hr. by cbn.
  - intros Hl Hblank.
    assert (Hen : enabled ClickSummarizeText (store w) = true).
    { unfold enabled. by rewrite Hl. }
    split; [done|].
    unfold step. rewrite Hrendered, Hen. cbn [andb].
    unfold dispatch, start, commit, Tool.summarizeText.
    rewrite (trim_blank _ Hblank), Hrendered. cbn. by rewrite app_nil_r.
Qed.

(** Witness of X9: the text "Hello world" against a transport that
    answers with summary "Hi." and document id "d1", and against one that
    answers without a body. *)
Lemma summarizeText_outcome_witness :
  let s := apply (SetText (js "Hello world")) initial in
  (let o := invoke Scenario.summarizing Tool.summarizeText s in
   requests (events o) =
     [EvRequest (PostSummarize (js "Hello world") (int 150) (int 40))] /\
   Succeeded (final o) (JStr (js "d1")) (JStr (js "Hi."))) /\
  (let o := invoke Scenario.emptyBody Tool.summarizeText s in
   requests (events o) =
     [EvRequest (PostSummarize (js "Hello world") (int 150) (int 40))] /\
   Failed (final o)
     (js "An error occurred during summarization. Please try again.") /\
   summary (final o) = summary s /\ documentId (final o) = documentId s).
Proof.
  exact (conj
           (summarizeText_outcome Scenario.summarizing
              (apply (SetText (js "Hello world")) initial) ltac:(reflexivity))
           (summarizeText_outcome Scenario.emptyBody
              (apply (SetText (js "Hello world")) initial) ltac:(reflexivity))).
Defined.

(** Witness of X10: the model "gpt-4" and no advanced options at all, on
    the render with [report] selected. *)
Lemma model_and_advanced_options_are_not_sent_witness :
  let s' := apply (SetAdvancedOptions ∅)
              (apply (SetSelectedModel (JStr (js "gpt-4"))) Scenario.withReport) in
  events (invoke Scenario.readyOnThird Tool.summarizeText s') =
    events (invoke Scenario.readyOnThird Tool.summarizeText Scenario.withReport) /\
  events (invoke Scenario.readyOnThird summarizeFile s') =
    events (invoke Scenario.readyOnThird summarizeFile Scenario.withReport).
Proof.
  exact (model_and_advanced_options_are_not_sent Scenario.readyOnThird
           Scenario.withReport (JStr (js "gpt-4")) ∅
           ltac:(reflexivity) ltac:(reflexivity)
           ltac:(reflexivity) ltac:(reflexivity)).
Defined.

(** Witness of X11: the value "abc" does not parse, so 150 is sent. *)
Lemma changed_maxLength_is_sent_or_defaulted_witness :
  let s := apply (SetText (js "Hello world")) initial in
  let s' := apply (handleOptionsChange (js "maxLength") (js "abc") s) s in
  requests (events (invoke Scenario.summarizing Tool.summarizeText s')) =
  [EvRequest (PostSummarize (js "Hello world") (int 150) (int 40))].
Proof.
  exact (changed_maxLength_is_sent_or_defaulted Scenario.summarizing
           (apply (SetText (js "Hello world")) initial) (js "abc")
           ltac:(reflexivity) ltac:(reflexivity) ltac:(reflexivity)).
Defined.

(** Witness of X12: the third status reply completes; and an upload
    answered without a body. *)
Lemma summarizeFile_trace_shape_witness :
  (let o := invoke Scenario.readyOnThird summarizeFile Scenario.withReport in
   exists k,
     1 <= k <= 30 /\
     observable (events o) =
       EvRequest (uploadRequest Scenario.withReport Scenario.report)
         :: pollEvents (JStr (js "d2")) k /\
     statusQueries (events o) = k /\
     (forall i, 1 <= i < k ->
        notReady (Scenario.readyOnThird i (GetDocument (JStr (js "d2")))) = true) /\
     match Scenario.readyOnThird k (GetDocument (JStr (js "d2"))) with
     | Fulfilled data =>
         if strictEqStr (get data "status") (js "completed")
         then Succeeded (final o) (JStr (js "d2")) (get data "summary")
         else k = 30 /\
              Failed (final o)
                (js "Summary generation is taking longer than expected. Please check back later.") /\
              documentId (final o) = JStr (js "d2")
     | FulfilledNull | Rejected _ =>
         k = 30 /\
         Failed (final o)
           (js "Summary generation is taking longer than expected. Please check back later.") /\
         documentId (final o) = JStr (js "d2")
     end) /\
  (let o := invoke Scenario.emptyBody summarizeFile Scenario.withReport in
   observable (events o) =
     [EvRequest (uploadRequest Scenario.withReport Scenario.report)] /\
   statusQueries (events o) = 0 /\
   Failed (final o)
     (js "Error uploading or processing document. Please try again.") /\
   documentId (final o) = JStr (js "")).
Proof.
  exact (conj
           (summarizeFile_trace_shape Scenario.readyOnThird Scenario.withReport
              Scenario.report ltac:(reflexivity))
           (summarizeFile_trace_shape Scenario.emptyBody Scenario.withReport
              Scenario.report ltac:(reflexivity))).
Defined.

(** Witness of X13: two replies that are not ready, then a completed one. *)
Lemma polling_stops_at_first_completed_witness :
  let o := invoke Scenario.readyOnThird summarizeFile Scenario.withReport in
  statusQueries (events o) = 3 /\
  requestCount (events o) = 4 /\
  Succeeded (final o) (JStr (js "d2")) (JStr (js "Done.")).
Proof.
  exact (polling_stops_at_first_completed Scenario.readyOnThird
           Scenario.withReport Scenario.report
           {[ js "document_id" := JStr (js "d2") ]} 2
           {[ js "status" := JStr (js "completed");
              js "summary" := JStr (js "Done.") ]}
           ltac:(reflexivity) ltac:(reflexivity)
           ltac:(unfold maxAttempts; lia)
           ltac:(intros [|[|i]] Hi; [reflexivity|reflexivity|lia])
           ltac:(reflexivity) ltac:(reflexivity)).
Defined.

(** Witness of X14: a render on which every handler passes its guard (a
    text, a file and a rating are there), against a transport that answers
    every request, one that rejects every request, and one whose document
    never gets ready. *)
Lemma handlers_turn_the_spinner_off_witness :
  (loading (final (invoke Scenario.summarizing Tool.summarizeText Scenario.filled)) = false /\
   loading (final (invoke Scenario.summarizing summarizeFile Scenario.filled)) = false /\
   loading (final (invoke Scenario.summarizing Tool.submitFeedback Scenario.filled)) = false) /\
  (loading (final (invoke Scenario.offline Tool.summarizeText Scenario.filled)) = false /\
   loading (final (invoke Scenario.offline summarizeFile Scenario.filled)) = false /\
   loading (final (invoke Scenario.offline Tool.submitFeedback Scenario.filled)) = false) /\
  (loading (final (invoke Scenario.neverReady Tool.summarizeText Scenario.filled)) = false /\
   loading (final (invoke Scenario.neverReady summarizeFile Scenario.filled)) = false /\
   loading (final (invoke Scenario.neverReady Tool.submitFeedback Scenario.filled)) = false).
Proof.
  exact (conj
           (handlers_turn_the_spinner_off Scenario.summarizing Scenario.filled
              ltac:(reflexivity))
        (conj
           (handlers_turn_the_spinner_off Scenario.offline Scenario.filled
              ltac:(reflexivity))
           (handlers_turn_the_spinner_off Scenario.neverReady Scenario.filled
              ltac:(reflexivity)))).
Defined.

(** ** The length sliders: a number rendered and parsed back *)

Lemma js_String c s : js (String c s) = N_of_ascii c :: js s.
Proof. reflexivity. Qed.

Lemma digit_cases (c : N) :
  (48 <= c <= 57)%N ->
  c = 48%N \/ c = 49%N \/ c = 50%N \/ c = 51%N \/ c = 52%N \/
  c = 53%N \/ c = 54%N \/ c = 55%N \/ c = 56%N \/ c = 57%N.
Proof. lia. Qed.

Lemma pretty_N_char_unit m :
  (m < 10)%N -> N_of_ascii (pretty_N_char m) = (48 + m)%N.
Proof.
  intros Hm.
  assert (m = 0 \/ m = 1 \/ m = 2 \/ m = 3 \/ m = 4 \/ m = 5 \/ m = 6 \/
          m = 7 \/ m = 8 \/ m = 9)%N as H by lia.
  repeat destruct H as [->|H]; try subst m; reflexivity.
Qed.

(** One decimal digit in front of the rest. *)
Lemma parseDigits_digit m acc l :
  (m < 10)%N ->
  parseDigits 10 acc ((48 + m)%N :: l) =
  parseDigits 10 (Some (default 0%N acc * 10 + m)%N) l.
Proof.
  intros Hm.
  assert (m = 0 \/ m = 1 \/ m = 2 \/ m = 3 \/ m = 4 \/ m = 5 \/ m = 6 \/
          m = 7 \/ m = 8 \/ m = 9)%N as H by lia.
  repeat destruct H as [->|H]; try subst m; reflexivity.
Qed.

(** The digits [pretty_N_go] puts in front of [s] are read back as the
    number they stand for. *)
Lemma parseDigits_pretty_N_go x :
  (0 < x)%N ->
  exists p, forall acc s,
    parseDigits 10 acc (js (pretty_N_go x s)) =
    parseDigits 10 (Some (default 0%N acc * p + x)%N) (js s).
Proof.
  induction (N.lt_wf_0 x) as [x _ IH]. intros Hx.
  assert (Hm : (x `mod` 10 < 10)%N) by (by apply N.mod_lt).
  destruct (decide (x `div` 10 = 0)%N) as [Hz|Hnz].
  - exists 10%N. intros acc s.
    rewrite pretty_N_go_step, Hz, pretty_N_go_0 by done.
    rewrite js_String, pretty_N_char_unit, parseDigits_digit by done.
    do 2 f_equal. pose proof (N.div_mod x 10 ltac:(done)) as H.
    rewrite Hz in H. generalize (default 0%N acc).
    generalize dependent (x `mod` 10)%N. intros; lia.
  - destruct (IH (x `div` 10)%N) as [p Hp];
      [by apply N.div_lt|by apply N.neq_0_lt_0|].
    exists (p * 10)%N. intros acc s.
    rewrite pretty_N_go_step, Hp by done.
    rewrite js_String, pretty_N_char_unit, parseDigits_digit by done.
    simpl default. do 2 f_equal.
    pose proof (N.div_mod x 10 ltac:(done)) as H.
    generalize (default 0%N acc).
    generalize dependent (x `mod` 10)%N. generalize dependent (x `div` 10)%N.
    intros; lia.
Qed.

Lemma pretty_N_go_digits x : forall s,
  Forall (fun c => (48 <= c <= 57)%N) (js s) ->
  Forall (fun c => (48 <= c <= 57)%N) (js (pretty_N_go x s)).
Proof.
  induction (N.lt_wf_0 x) as [x _ IH]. intros s Hs.
  destruct (decide (x = 0)%N) as [->|Hx]; [by rewrite pretty_N_go_0|].
  rewrite pretty_N_go_step by lia. apply IH; [apply N.div_lt; lia|].
  rewrite js_String. constructor; [|done].
  rewrite pretty_N_char_unit by (by apply N.mod_lt).
  pose proof (N.mod_lt x 10 ltac:(done)) as Hm.
  generalize dependent (x `mod` 10)%N. intros; lia.
Qed.

Lemma parseDigits_Some radix l : forall a,
  exists b, parseDigits radix (Some a) l = Some b.
Proof.
  induction l as [|c l IH]; intros a; simpl; [by eexists|].
  destruct (digitValue c) as [d|]; [|by eexists].
  destruct (d <? radix)%N; [apply IH|by eexists].
Qed.

Lemma pretty_N_go_nonempty x s : (0 < x)%N -> js (pretty_N_go x s) <> [].
Proof.
  intros Hx. destruct (parseDigits_pretty_N_go x Hx) as [p Hp].
  intros Hnil. specialize (Hp None s). rewrite Hnil in Hp.
  destruct (parseDigits_Some 10 (js s) (default 0%N None * p + x)%N) as [b Hb].
  rewrite Hb in Hp. done.
Qed.

(** [parseInt] on a non-empty string of decimal digits. *)
Lemma parseInt_digits l :
  l <> [] -> Forall (fun c => (48 <= c <= 57)%N) l ->
  parseInt l = match parseDigits 10 None l with
               | None => JNum NaN
               | Some n => JNum (ofInteger (Z.of_N n))
               end /\
  parseInt (45%N :: l) = match parseDigits 10 None l with
                         | None => JNum NaN
                         | Some n => JNum (ofInteger (- Z.of_N n))
                         end.
Proof.
  intros Hne Hl. destruct l as [|c l]; [done|].
  apply Forall_cons in Hl as [Hc Hl].
  apply digit_cases in Hc.
  assert (Hrest : c <> 48%N \/ c = 48%N) by lia.
  destruct Hrest as [Hc' | ->].
  - repeat destruct Hc as [->|Hc]; try subst c; try done; by split.
  - destruct l as [|c2 l]; [by split|].
    apply Forall_cons in Hl as [Hc2 Hl]. apply digit_cases in Hc2.
    repeat destruct Hc2 as [->|Hc2]; try subst c2; by split.
Qed.

(** Integers up to 2^53 in absolute value are Number values. *)
Lemma ofInteger_exact z :
  (- 2 ^ 53 <= z <= 2 ^ 53)%Z -> JNum (ofInteger z) = int z.
Proof.
  intros Hz. unfold ofInteger, int.
  destruct (Z.leb_spec (Z.abs z) (2 ^ 53)) as [_|Hgt]; [done|]. lia.
Qed.

(** Beyond 2^53 [parseInt] rounds: 2^53 + 1 is read as 2^53, and 2^53 + 3
    as 2^53 + 4. *)
Example parseInt_rounds :
  parseInt (js "9007199254740993") = int 9007199254740992 /\
  parseInt (js "9007199254740995") = int 9007199254740996 /\
  parseInt (js "-9007199254740993") = int (- 9007199254740992).
Proof. by vm_compute. Qed.

(** X18. A length survives the trip through its slider: for an integer
    of at most 2^53 in absolute value (the integers a JavaScript number
    holds exactly and prints in plain decimals), the decimal rendering,
    parsed by [parseInt], is that integer again; so [handleOptionsChange] on
    the rendered value stores the number under the given name. *)
Theorem rendered_length_parses_back z name s :
  (- 2 ^ 53 <= z <= 2 ^ 53)%Z ->
  parseInt (showZ z) = int z /\
  summaryOptions (apply (handleOptionsChange name (showZ z) s) s) !! name =
  Some (int z).
Proof.
  intros Hz.
  assert (Hparse : parseInt (showZ z) = int z).
  { rewrite <- (ofInteger_exact z Hz). unfold showZ. destruct z as [|x|x].
    - reflexivity.
    - change (pretty (Z.pos x)) with (pretty_N_go (N.pos x) "").
      destruct (parseInt_digits (js (pretty_N_go (N.pos x) ""))) as [-> _].
      + by apply pretty_N_go_nonempty.
      + by apply pretty_N_go_digits.
      + destruct (parseDigits_pretty_N_go (N.pos x)) as [p Hp]; [done|].
        by rewrite Hp.
    - change (pretty (Z.neg x)) with ("-" +:+ pretty_N_go (N.pos x) "").
      change (js ("-" +:+ ?t)) with (45%N :: js t).
      destruct (parseInt_digits (js (pretty_N_go (N.pos x) ""))) as [_ ->].
      + by apply pretty_N_go_nonempty.
      + by apply pretty_N_go_digits.
      + destruct (parseDigits_pretty_N_go (N.pos x)) as [p Hp]; [done|].
        by rewrite Hp. }
  split; [done|].
  rewrite <- Hparse. destruct s. cbn. apply lookup_insert_eq.
Qed.

(** Witness of X18: the maximum-length slider at 150, on the initial
    render. *)
Lemma rendered_length_parses_back_witness :
  parseInt (showZ 150) = int 150 /\
  summaryOptions
    (apply (handleOptionsChange (js "maxLength") (showZ 150) initial) initial)
    !! js "maxLength" = Some (int 150).
Proof.
  exact (rendered_length_parses_back 150 (js "maxLength") initial
           ltac:(lia)).
Defined.

(** ** Extensions, and the two validators side by side *)

Section ExtensionsMore.

Variable toLowerCase : list N -> list N.

Lemma splitOn_go_no_sep sep s : forall cur,
  Forall (fun c => c <> sep) s ->
  splitOn_go sep cur s = [rev cur ++ s].
Proof.
  induction s as [|c r IH]; intros cur H; simpl.
  - by rewrite app_nil_r.
  - apply Forall_cons in H as [Hc Hr].
    destruct (N.eqb_spec c sep) as [|_]; [done|].
    rewrite IH by done. simpl. by rewrite <- app_assoc.
Qed.

Lemma splitOn_go_nonempty sep s : forall cur, splitOn_go sep cur s <> [].
Proof.
  induction s as [|c r IH]; intros cur; simpl; [done|].
  destruct (c =? sep)%N; [done|apply IH].
Qed.

Lemma splitOn_go_last sep a b : forall cur,
  Forall (fun c => c <> sep) b ->
  List.last (splitOn_go sep cur (a ++ sep :: b)) [] = b.
Proof.
  induction a as [|c a IH]; intros cur Hb.
  - cbn [app splitOn_go]. rewrite N.eqb_refl.
    by rewrite splitOn_go_no_sep.
  - cbn [app splitOn_go]. destruct (c =? sep)%N.
    + specialize (IH [] Hb).
      pose proof (splitOn_go_nonempty sep (a ++ sep :: b) []) as Hne.
      by destruct (splitOn_go sep [] (a ++ sep :: b)).
    + by apply IH.
Qed.

(** X19. The extension of a file name is what follows its last dot,
    lowercased and with the dot put back; a name without any dot is taken
    whole, so that a file called [pdf] has the extension [.pdf]. *)
Theorem extensionOf_last_dot base ext :
  Forall (fun c => c <> 46%N) ext ->
  extensionOf toLowerCase (base ++ js "." ++ ext) = js "." ++ toLowerCase ext /\
  extensionOf toLowerCase ext = js "." ++ toLowerCase ext.
Proof.
  intros Hext. unfold extensionOf, splitOn. split.
  - change (js "." ++ ext) with (46%N :: ext).
    by rewrite splitOn_go_last.
  - by rewrite splitOn_go_no_sep.
Qed.

(** X5. The standalone [validateFile] judges a file by two independent
    tests: it is valid exactly when its size is at most 10 MB and its
    extension is in the allowed list, and [errors] holds one message per
    failed test. *)
Theorem validateFile_verdict f :
  let v := validateFile toLowerCase (Some f) in
  (fst v = true <->
   (file_size f <= MAX_SIZE)%Z /\
   extensionOf toLowerCase (file_name f) ∈ ALLOWED_EXTENSIONS) /\
  length (snd v) =
  (if (file_size f >? MAX_SIZE)%Z then 1 else 0) +
  (if bool_decide (extensionOf toLowerCase (file_name f) ∈ ALLOWED_EXTENSIONS)
   then 0 else 1).
Proof.
  intros v. subst v. rewrite validateFile_lists_every_violation. cbn [fst snd].
  destruct (Z.gtb_spec (file_size f) MAX_SIZE) as [Hbig|Hok];
    destruct (bool_decide_reflect
                (extensionOf toLowerCase (file_name f) ∈ ALLOWED_EXTENSIONS))
      as [Hin|Hout]; cbn; (split; [|done]); split; try done;
    intros [? ?]; try done; lia.
Qed.

(** X20. On the type of a file the upload control of the tool and
    [validateFile] look at the same thing: none of the accepted types is a
    pattern, so the control accepts a file when its extension is one of the
    four, or when its MIME type is literally one of these four strings.
    For every file whose MIME type is not such a string, the control accepts
    the file exactly when [validateFile] finds it valid. *)
Theorem upload_control_agrees_with_validateFile l f :
  file_type f ∉ ALLOWED_EXTENSIONS ->
  accepted toLowerCase (toolProps l) f = fst (validateFile toLowerCase (Some f)).
Proof.
  intros Hmime. rewrite validateFile_lists_every_violation. cbn [fst].
  unfold accepted, tooLarge, typeAccepted.
  change (maxSize (toolProps l) * 1024 * 1024)%Z with MAX_SIZE.
  change (splitOn 44 (accept (toolProps l))) with ALLOWED_EXTENSIONS.
  f_equal. rewrite negb_involutive.
  set (e := extensionOf toLowerCase (file_name f)).
  assert (Hm : forall t, t ∈ ALLOWED_EXTENSIONS ->
                 typeMatches f e t = bool_decide (t = e)).
  { intros t Ht. unfold typeMatches.
    assert (includesUnit t 42 = false) as ->.
    { unfold ALLOWED_EXTENSIONS in Ht.
      repeat (apply elem_of_cons in Ht as [->|Ht]; [done|]).
      by apply elem_of_nil in Ht. }
    rewrite (bool_decide_eq_false_2 (t = file_type f)); [by rewrite orb_false_r|].
    by intros ->. }
  apply eq_true_iff_eq. rewrite bool_decide_eq_true.
  rewrite <- Is_true_true, existb_True, Exists_exists.
  split.
  - intros (t & Ht & Hmt). rewrite (Hm t Ht) in Hmt.
    apply Is_true_true, bool_decide_eq_true in Hmt. by subst.
  - intros He. exists e. split; [done|]. rewrite (Hm e He).
    by apply Is_true_true, bool_decide_eq_true.
Qed.

End ExtensionsMore.

(** Witness of X19: [notes.final.TXT]. *)
Lemma extensionOf_last_dot_witness :
  extensionOf asciiToLowerCase (js "notes.final" ++ js "." ++ js "TXT") = js ".txt" /\
  extensionOf asciiToLowerCase (js "TXT") = js ".txt".
Proof.
  exact (extensionOf_last_dot asciiToLowerCase (js "notes.final") (js "TXT")
           ltac:(repeat constructor; discriminate)).
Defined.

(** Witness of X20: [report.PDF] with its usual MIME type. *)
Lemma upload_control_agrees_with_validateFile_witness :
  accepted asciiToLowerCase (toolProps false) Scenario.report =
  fst (validateFile asciiToLowerCase (Some Scenario.report)).
Proof.
  exact (upload_control_agrees_with_validateFile asciiToLowerCase false
           Scenario.report
           ltac:(apply (proj1 (bool_decide_eq_false _)); vm_compute; reflexivity)).
Defined.

(** Witness of X17: the upload button on the render with [report]
    selected, the feedback button on a rated summary, and the text button
    on a text of two spaces. *)
Lemma enabled_buttons_and_guards_witness :
  (exists f, file Scenario.withReport = Some f /\
     snd (step (mkInstance Scenario.withReport [] [] true)
            (User ClickSummarizeFile)) =
     [EvRequest (uploadRequest Scenario.withReport f)]) /\
  snd (step (mkInstance Scenario.rated [] [] true) (User ClickSubmitFeedback)) =
    [EvRequest (PostFeedback (JStr (js "d1")) (JStr (js "d1")) 4
                  (js "Too short") (JStr (js "Hi.")))] /\
  (let w := mkInstance (apply (SetText [32%N; 32%N]) initial) [] [] true in
   enabled ClickSummarizeText (store w) = true /\
   snd (step w (User ClickSummarizeText)) = [] /\
   inflight (fst (step w (User ClickSummarizeText))) = [] /\
   store (fst (step w (User ClickSummarizeText))) =
     apply (SetError (js "Please enter some text to summarize")) (store w)).
Proof.
  exact (conj
           (proj1 (enabled_buttons_and_guards
                     (mkInstance Scenario.withReport [] [] true)
                     ltac:(reflexivity))
              ltac:(reflexivity))
        (conj
           (proj1 (proj2 (enabled_buttons_and_guards
                            (mkInstance Scenario.rated [] [] true)
                            ltac:(reflexivity)))
              ltac:(reflexivity))
           (proj2 (proj2 (enabled_buttons_and_guards
                            (mkInstance (apply (SetText [32%N; 32%N]) initial)
                               [] [] true)
                            ltac:(reflexivity)))
              ltac:(reflexivity)
              ltac:(repeat constructor)))).
Defined.
